(** * Phenyl: request pipeline and Standard User strategy

    A shallow embedding of
    [src/modules/standards/src/standard-user-definition.ts], which holds two
    programs:

    - the TypeScript class [StandardUserDefinition] (constructor defaults and
      the credential verifier [authorize]);
    - the Flow class [PhenylCore] (the pipeline entry point [run], the
      dispatcher [execute], and the authentication controller [login] /
      [logout]).

    Asynchronous functions are embedded as state-passing computations over
    the state of the external collaborators.  Every call the embedded code
    issues to a collaborator is appended to a trace, so that "is invoked
    exactly once" and "is never invoked" are statements about that trace. *)

From Stdlib Require Import ZArith Lia Ascii String.
From stdpp Require Import base strings gmap list.

Local Open Scope string_scope.
Local Open Scope list_scope.
Local Open Scope Z_scope.

(** ** Errors *)

(** The error kinds the core surfaces.  An error without a kind is the
    generic (untyped) error. *)
Inductive ErrorKind :=
| InvalidRequest
| Unauthorized
| BadRequest
| NotFound.

(** A thrown JavaScript [Error]: its [message] and, for errors built by
    [createServerError], its [type]. *)
Record Exn := { message : string; type : option ErrorKind }.

(** [new Error(message)] *)
Definition Error (msg : string) : Exn := {| message := msg; type := None |}.

(** Modelled from the spec: [createServerError] of [@phenyl/utils] is not
    part of the sources.  It builds an error of the given kind that carries
    the given message. *)
Definition createServerError (msg : string) (kind : ErrorKind) : Exn :=
  {| message := msg; type := Some kind |}.

(** An error result: the [{ok: 0, type, message}] object. *)
Record ErrorResult := { er_type : option ErrorKind; er_message : string }.

(** Modelled from the spec: [createErrorResult] of [phenyl-utils] is not part
    of the sources.  With a kind it yields the error result of that kind; with
    no kind it is the catch-all conversion, which keeps the kind the error
    already has and is generic otherwise.  The message is the error's. *)
Definition createErrorResult (e : Exn) (kind : option ErrorKind) : ErrorResult :=
  {| er_type := match kind with Some k => Some k | None => type e end;
     er_message := message e |}.

(** ** Asynchronous computations *)

(** How a call settles.  A function written by somebody else may throw while
    it is being called ([Thrown]) or hand back a promise that is later
    fulfilled or rejected.  An [async] function never throws synchronously. *)
Inductive Outcome (A : Type) :=
| Fulfilled (a : A)
| Rejected (e : Exn)
| Thrown (e : Exn).
Arguments Fulfilled {A} a.
Arguments Rejected {A} e.
Arguments Thrown {A} e.

(** Completion of a statement sequence inside a function body. *)
Inductive Completion (A : Type) :=
| Normal (a : A)
| Abrupt (e : Exn).
Arguments Normal {A} a.
Arguments Abrupt {A} e.

Section Async.
Context {W E : Type}.

(** The state threaded through a request: the collaborators' own state and
    the calls issued so far. *)
Record State := { world : W; trace : list E }.

(** A collaborator's method, acting on the collaborators' state. *)
Definition Extern (A : Type) := W -> Outcome A * W.

(** A call as seen by the caller. *)
Definition Action (A : Type) := State -> Outcome A * State.

(** The statements of a function body. *)
Definition Body (A : Type) := State -> Completion A * State.

Definition ret {A} (a : A) : Body A := fun st => (Normal a, st).

Definition throw {A} (e : Exn) : Body A := fun st => (Abrupt e, st).

Definition bind {A B} (m : Body A) (k : A -> Body B) : Body B :=
  fun st =>
    match m st with
    | (Normal a, st') => k a st'
    | (Abrupt e, st') => (Abrupt e, st')
    end.

(** [try { body } catch (e) { handler }] *)
Definition tryCatch {A} (body : Body A) (handler : Exn -> Body A) : Body A :=
  fun st =>
    match body st with
    | (Normal a, st') => (Normal a, st')
    | (Abrupt e, st') => handler e st'
    end.

(** [await call]: a rejection (or a throw while calling) is raised at the
    [await], inside whatever [try] encloses it. *)
Definition await {A} (call : Action A) : Body A :=
  fun st =>
    match call st with
    | (Fulfilled a, st') => (Normal a, st')
    | (Rejected e, st') => (Abrupt e, st')
    | (Thrown e, st') => (Abrupt e, st')
    end.

(** The operand of [return call] with no [await]: a throw while calling is
    raised in the body, but a promise is handed back as it is; its rejection
    is not raised here. *)
Definition unawaited {A} (call : Action A) : Body (Outcome A) :=
  fun st =>
    match call st with
    | (Thrown e, st') => (Abrupt e, st')
    | (settled, st') => (Normal settled, st')
    end.

(** A synchronous call that may throw. *)
Definition sync {A} (c : Completion A) : Body A := fun st => (c, st).

(** [async function] whose body returns plain values. *)
Definition async {A} (body : Body A) : Action A :=
  fun st =>
    match body st with
    | (Normal a, st') => (Fulfilled a, st')
    | (Abrupt e, st') => (Rejected e, st')
    end.

(** [async function] whose [return] operands may be promises: the
    function's promise follows the returned one. *)
Definition asyncReturning {A} (body : Body (Outcome A)) : Action A :=
  fun st =>
    match body st with
    | (Normal (Fulfilled a), st') => (Fulfilled a, st')
    | (Normal (Rejected e), st') => (Rejected e, st')
    | (Normal (Thrown e), st') => (Rejected e, st')
    | (Abrupt e, st') => (Rejected e, st')
    end.

(** Calling a collaborator: the call is recorded, then the collaborator
    acts on its state. *)
Definition extern {A} (ev : E) (f : Extern A) : Action A :=
  fun st =>
    let '(o, w) := f (world st) in
    (o, {| world := w; trace := trace st ++ [ev] |}).

(** Reading the collaborators' state (the clock, for [Date.now()]). *)
Definition gets {A} (f : W -> A) : Body A := fun st => (Normal (f (world st)), st).
End Async.

Arguments State : clear implicits.
Arguments Extern : clear implicits.
Arguments Action : clear implicits.
Arguments Body : clear implicits.

Declare Scope js_scope.
Delimit Scope js_scope with js.
Notation "x <- m ;; k" := (bind m (fun x => k))
  (at level 100, m at next level, right associativity) : js_scope.
Local Open Scope js_scope.

(** ** JavaScript values and dates *)

(** The values a credential or a filter holds. *)
Inductive Value :=
| VUndefined
| VNull
| VBool (b : bool)
| VNum (n : Z)
| VStr (s : string).

#[global] Instance Value_eq_dec : EqDecision Value.
Proof. solve_decision. Defined.

(** [obj[key]]: a property that is absent reads as [undefined]. *)
Definition prop (obj : gmap string Value) (key : string) : Value :=
  default VUndefined (obj !! key).

(** Time values are milliseconds since the epoch, and a [Date] is valid
    within 100,000,000 days on either side of it.  Numbers are whole numbers
    here; every whole number of that range is exact as a JavaScript number. *)
Definition maxTimeValue : Z := 8640000000000000.
Definition msPerDay : Z := 86400000.

Definition digit (n : Z) : ascii := ascii_of_nat (48 + Z.to_nat (n mod 10)).

(** [n] in decimal, on [width] digits. *)
Fixpoint digits (width : nat) (n : Z) : string :=
  match width with
  | O => ""
  | S w => String.append (digits w (n / 10)) (String (digit n) "")
  end.

(** Year, month and day of a day number (days since 1970-01-01) in the
    proleptic Gregorian calendar. *)
Definition civilFromDays (day : Z) : Z * Z * Z :=
  let z := day + 719468 in
  let era := z / 146097 in
  let doe := z - era * 146097 in
  let yoe := (doe - doe / 1460 + doe / 36524 - doe / 146096) / 365 in
  let doy := doe - (365 * yoe + yoe / 4 - yoe / 100) in
  let mp := (5 * doy + 2) / 153 in
  let d := doy - (153 * mp + 2) / 5 + 1 in
  let m := if mp <? 10 then mp + 3 else mp - 9 in
  let y := yoe + era * 400 + (if m <=? 2 then 1 else 0) in
  (y, m, d).

(** Years 0 to 9999 are written on four digits, the others signed on six. *)
Definition isoYear (y : Z) : string :=
  if (0 <=? y) && (y <=? 9999) then digits 4 y
  else if y <? 0 then String.append "-" (digits 6 (- y))
  else String.append "+" (digits 6 y).

(** [new Date(t).toISOString()]: the ISO-8601 form
    [YYYY-MM-DDTHH:mm:ss.sssZ], or a [RangeError] for an invalid date. *)
Definition toISOString (t : Z) : Completion string :=
  if Z.abs t <=? maxTimeValue then
    let '(y, m, d) := civilFromDays (t / msPerDay) in
    let ms := t mod msPerDay in
    Normal (String.concat ""
      [isoYear y; "-"; digits 2 m; "-"; digits 2 d; "T";
       digits 2 (ms / 3600000); ":"; digits 2 (ms / 60000 mod 60); ":";
       digits 2 (ms / 1000 mod 60); "."; digits 3 (ms mod 1000); "Z"])
  else Abrupt (Error "Invalid time value").

(** [a || b] on an optional parameter: [b] replaces [a] when [a] is absent or
    falsy. *)
Class Truthy (A : Type) := truthy : A -> bool.

#[global] Instance string_truthy : Truthy string :=
  fun s => match s with EmptyString => false | String _ _ => true end.

#[global] Instance number_truthy : Truthy Z := fun n => negb (n =? 0).

#[global] Instance function_truthy {A B : Type} : Truthy (A -> B) := fun _ => true.

Definition orElse {A : Type} `{Truthy A} (a : option A) (b : A) : A :=
  match a with
  | Some x => if truthy x then x else b
  | None => b
  end.

(** ** Sessions and entities *)

Definition Id := string.

Record Session := {
  session_id : Id;
  session_expiredAt : string;
  session_entityName : string;
  session_userId : Id
}.

Record PreSession := {
  ps_expiredAt : string;
  ps_entityName : string;
  ps_userId : Id
}.

(** An account record: its [id] and its other properties. *)
Record Entity := { entity_id : Id; entity_props : gmap string Value }.

(** [{entityName, credentials}] *)
Record LoginCommand := {
  lc_entityName : string;
  lc_credentials : gmap string Value
}.

(** [{sessionId}] *)
Record LogoutCommand := { lo_sessionId : Id }.

(** ** The Standard User strategy (TypeScript class) *)

Module StandardUserDefinition.

Definition EncryptFunction := Value -> Value.

(** The argument of [entityClient.findOne]: [{entityName, where}]. *)
Record WhereQuery := { q_entityName : string; q_where : gmap string Value }.

(** What [findOne] resolves to: [{entity, versionId}].  When no record
    matches, [findOne] does not resolve: it rejects. *)
Record FindOneResult := { fr_entity : Entity; fr_versionId : option Id }.

(** [{preSession, user, versionId}] *)
Record AuthenticationResult := {
  preSession : PreSession;
  user : Entity;
  versionId : option Id
}.

(** The calls [authorize] issues. *)
Inductive Event :=
| FindOneCall (query : WhereQuery).

Section Class.
Context {W : Type}.

(** [Date.now()], read from the environment. *)
Variable Date_now : W -> Z.

(** The default password transform, imported from [power-crypt]. *)
Variable powerCrypt : EncryptFunction.

(** The part of [EntityClient] this class uses. *)
Record EntityClient := { findOne : WhereQuery -> Extern W FindOneResult }.

Record StandardUserDefinitionParams := {
  p_entityClient : EntityClient;
  p_encrypt : option EncryptFunction;
  p_accountPropName : option string;
  p_passwordPropName : option string;
  p_ttl : option Z
}.

Record t := {
  entityClient : EntityClient;
  encrypt : EncryptFunction;
  accountPropName : string;
  passwordPropName : string;
  ttl : Z
}.

Definition constructor (params : StandardUserDefinitionParams) : t :=
  {| entityClient := p_entityClient params;
     encrypt := orElse (p_encrypt params) powerCrypt;
     accountPropName := orElse (p_accountPropName params) "account";
     passwordPropName := orElse (p_passwordPropName params) "password";
     ttl := orElse (p_ttl params) (60 * 60 * 24 * 365) |}.

Definition authorize (self : t) (loginCommand : LoginCommand)
    (session : option Session) : Action W Event AuthenticationResult :=
  let credentials := lc_credentials loginCommand in
  let entityName := lc_entityName loginCommand in
  let account := prop credentials (accountPropName self) in
  let password := prop credentials (passwordPropName self) in
  async (tryCatch
    (let query :=
       {| q_entityName := entityName;
          q_where := <[passwordPropName self := encrypt self password]>
                       (<[accountPropName self := account]> ∅) |} in
     result <- await (extern (FindOneCall query)
                        (findOne (entityClient self) query)) ;;
     let user := fr_entity result in
     now <- gets Date_now ;;
     expiredAt <- sync (toISOString (now + ttl self * 1000)) ;;
     let preSession := {| ps_expiredAt := expiredAt;
                          ps_entityName := entityName;
                          ps_userId := entity_id user |} in
     ret {| preSession := preSession; user := user;
            versionId := fr_versionId result |})
    (fun e => throw (createServerError (message e) Unauthorized))).
End Class.

Arguments EntityClient : clear implicits.
Arguments StandardUserDefinitionParams : clear implicits.
Arguments t : clear implicits.

End StandardUserDefinition.

(** ** The request pipeline (Flow class) *)

Module PhenylCore.

(** The eleven methods of the entity client. *)
Inductive EntityMethod :=
| Find | FindOne | Get | GetByIds
| Insert | InsertAndGet | InsertAndFetch
| Update | UpdateAndGet | UpdateAndFetch
| Delete.

#[global] Instance EntityMethod_eq_dec : EqDecision EntityMethod.
Proof. solve_decision. Defined.

Definition methodName (m : EntityMethod) : string :=
  match m with
  | Find => "find" | FindOne => "findOne" | Get => "get"
  | GetByIds => "getByIds" | Insert => "insert"
  | InsertAndGet => "insertAndGet" | InsertAndFetch => "insertAndFetch"
  | Update => "update" | UpdateAndGet => "updateAndGet"
  | UpdateAndFetch => "updateAndFetch" | Delete => "delete"
  end.

Section Class.
(** [W]: the collaborators' state.  [Params], [CustomParams]: the
    parameters of the data operations and of the custom query and
    command.  [Data]: what a successful data operation carries.
    [User]: the user an authentication yields. *)
Context {W Params CustomParams Data User : Type}.

(** The command envelope: the fifteen properties the dispatcher reads.  A
    variant is populated when its property is neither [null] nor
    [undefined]; an envelope none of whose recognized variants is populated
    has [None] everywhere. *)
Record RequestData := {
  req_find : option Params;
  req_findOne : option Params;
  req_get : option Params;
  req_getByIds : option Params;
  req_insert : option Params;
  req_insertAndGet : option Params;
  req_insertAndFetch : option Params;
  req_update : option Params;
  req_updateAndGet : option Params;
  req_updateAndFetch : option Params;
  req_delete : option Params;
  req_runCustomQuery : option CustomParams;
  req_runCustomCommand : option CustomParams;
  req_login : option LoginCommand;
  req_logout : option LogoutCommand
}.

(** A result with [ok] truthy. *)
Inductive OkResult :=
| DataResult (data : Data)
| LoginResult (user : User) (session : Session)
| LogoutResult.

(** What a handler resolves to: a result whose [ok] is truthy, or an
    error result, whose [ok] is not. *)
Inductive ResultOrError :=
| Ok (result : OkResult)
| Err (error : ErrorResult).

(** The result envelope: [{key: result}] or [{error: result}]. *)
Inductive ResponseData :=
| Response (key : string) (result : OkResult)
| ErrorResponse (error : ErrorResult).

(** What the authentication hook resolves to:
    [{ok: 1, preSession, user}] or [{ok: 0, resultType, error}]. *)
Inductive AuthenticationResult :=
| Authenticated (preSession : PreSession) (user : User)
| AuthenticationFailed (error : Exn) (resultType : ErrorKind).

Record SessionClient := {
  sc_get : option Id -> Extern W (option Session);
  sc_create : PreSession -> Extern W Session;
  sc_delete : Id -> Extern W bool
}.

Record EntityClient := {
  ec_find : Params -> Extern W ResultOrError;
  ec_findOne : Params -> Extern W ResultOrError;
  ec_get : Params -> Extern W ResultOrError;
  ec_getByIds : Params -> Extern W ResultOrError;
  ec_insert : Params -> Extern W ResultOrError;
  ec_insertAndGet : Params -> Extern W ResultOrError;
  ec_insertAndFetch : Params -> Extern W ResultOrError;
  ec_update : Params -> Extern W ResultOrError;
  ec_updateAndGet : Params -> Extern W ResultOrError;
  ec_updateAndFetch : Params -> Extern W ResultOrError;
  ec_delete : Params -> Extern W ResultOrError
}.

Record ClientPool := {
  sessionClient : SessionClient;
  entityClient : EntityClient
}.

(** The calls the pipeline issues.  A hook is handed the clients and may
    use them; what it does with them is part of its own effect on [W] and
    is not a call of the pipeline. *)
Inductive Event :=
| SessionGet (sessionId : option Id)
| SessionCreate (preSession : PreSession)
| SessionDelete (sessionId : Id)
| EntityCall (method : EntityMethod) (params : Params)
| AclCall (reqData : RequestData) (session : option Session)
| ValidationCall (reqData : RequestData) (session : option Session)
| ExecutionWrapperCall (reqData : RequestData) (session : option Session)
| CustomQueryCall (params : CustomParams) (session : option Session)
| CustomCommandCall (params : CustomParams) (session : option Session)
| AuthenticationCall (loginCommand : LoginCommand) (session : option Session).

(** The dispatcher as the execution wrapper receives it. *)
Definition RestApiExecution :=
  RequestData -> option Session -> Action W Event ResponseData.

Record t := {
  clients : ClientPool;
  aclHandler : RequestData -> option Session -> ClientPool -> Extern W bool;
  validationHandler : RequestData -> option Session -> ClientPool -> Extern W bool;
  customQueryHandler : CustomParams -> option Session -> ClientPool -> Extern W ResultOrError;
  customCommandHandler : CustomParams -> option Session -> ClientPool -> Extern W ResultOrError;
  authenticationHandler : LoginCommand -> option Session -> ClientPool -> Extern W AuthenticationResult;
  executionWrapper : RequestData -> option Session -> ClientPool -> RestApiExecution -> Action W Event ResponseData
}.

(** [assertValidRequestData] of [phenyl-utils], which is not part of the
    sources: it returns, or throws for a malformed envelope. *)
Variable assertValidRequestData : RequestData -> Completion unit.

(** [entityClient.method]: the method of that name. *)
Definition methodOf (c : EntityClient) (m : EntityMethod) : Params -> Extern W ResultOrError :=
  match m with
  | Find => ec_find c | FindOne => ec_findOne c | Get => ec_get c
  | GetByIds => ec_getByIds c | Insert => ec_insert c
  | InsertAndGet => ec_insertAndGet c | InsertAndFetch => ec_insertAndFetch c
  | Update => ec_update c | UpdateAndGet => ec_updateAndGet c
  | UpdateAndFetch => ec_updateAndFetch c | Delete => ec_delete c
  end.

(** [result.ok ? { key: result } : { error: result }] *)
Definition respond (key : string) (result : ResultOrError) : ResponseData :=
  match result with
  | Ok r => Response key r
  | Err e => ErrorResponse e
  end.

Definition login (self : t) (loginCommand : LoginCommand)
    (session : option Session) : Action W Event ResultOrError :=
  async (tryCatch
    (result <- await (extern (AuthenticationCall loginCommand session)
                        (authenticationHandler self loginCommand session (clients self))) ;;
     match result with
     | AuthenticationFailed error resultType =>
         ret (Err (createErrorResult error (Some resultType)))
     | Authenticated preSession user =>
         newSession <- await (extern (SessionCreate preSession)
                                (sc_create (sessionClient (clients self)) preSession)) ;;
         ret (Ok (LoginResult user newSession))
     end)
    (fun e => ret (Err (createErrorResult e None)))).

Definition logout (self : t) (logoutCommand : LogoutCommand)
    (session : option Session) : Action W Event ResultOrError :=
  let sessionId := lo_sessionId logoutCommand in
  async (tryCatch
    (result <- await (extern (SessionDelete sessionId)
                        (sc_delete (sessionClient (clients self)) sessionId)) ;;
     if negb result
     then ret (Err (createErrorResult (Error "sessionId not found") (Some BadRequest)))
     else ret (Ok LogoutResult))
    (fun e => ret (Err (createErrorResult e None)))).

(** [entityClient.method(params)], recorded. *)
Definition callEntity (self : t) (m : EntityMethod) (params : Params) : Action W Event ResultOrError :=
  extern (EntityCall m params) (methodOf (entityClient (clients self)) m params).

Definition execute (self : t) (reqData : RequestData)
    (session : option Session) : Action W Event ResponseData :=
  async (
    match req_find reqData with Some params =>
      result <- await (callEntity self Find params) ;;
      ret (respond "find" result)
    | None =>
    match req_findOne reqData with Some params =>
      result <- await (callEntity self FindOne params) ;;
      ret (respond "findOne" result)
    | None =>
    match req_get reqData with Some params =>
      result <- await (callEntity self Get params) ;;
      ret (respond "get" result)
    | None =>
    match req_getByIds reqData with Some params =>
      result <- await (callEntity self GetByIds params) ;;
      ret (respond "getByIds" result)
    | None =>
    match req_insert reqData with Some params =>
      result <- await (callEntity self Insert params) ;;
      ret (respond "insert" result)
    | None =>
    match req_insertAndGet reqData with Some params =>
      result <- await (callEntity self InsertAndGet params) ;;
      ret (respond "insertAndGet" result)
    | None =>
    match req_insertAndFetch reqData with Some params =>
      result <- await (callEntity self InsertAndFetch params) ;;
      ret (respond "insertAndFetch" result)
    | None =>
    match req_update reqData with Some params =>
      result <- await (callEntity self Update params) ;;
      ret (respond "update" result)
    | None =>
    match req_updateAndGet reqData with Some params =>
      result <- await (callEntity self UpdateAndGet params) ;;
      ret (respond "updateAndGet" result)
    | None =>
    match req_updateAndFetch reqData with Some params =>
      result <- await (callEntity self UpdateAndFetch params) ;;
      ret (respond "updateAndFetch" result)
    | None =>
    match req_delete reqData with Some params =>
      result <- await (callEntity self Delete params) ;;
      ret (respond "delete" result)
    | None =>
    match req_runCustomQuery reqData with Some params =>
      result <- await (extern (CustomQueryCall params session)
                          (customQueryHandler self params session (clients self))) ;;
      ret (respond "runCustomQuery" result)
    | None =>
    match req_runCustomCommand reqData with Some params =>
      result <- await (extern (CustomCommandCall params session)
                          (customCommandHandler self params session (clients self))) ;;
      ret (respond "runCustomCommand" result)
    | None =>
    match req_login reqData with Some loginCommand =>
      result <- await (login self loginCommand session) ;;
      ret (respond "login" result)
    | None =>
    match req_logout reqData with Some logoutCommand =>
      result <- await (logout self logoutCommand session) ;;
      ret (respond "logout" result)
    | None =>
      ret (ErrorResponse (createErrorResult (Error "Invalid method name.") (Some NotFound)))
    end end end end end end end end end end end end end end end).

(** The execution wrapper is called with the dispatcher bound to [self];
    the call is recorded before the wrapper runs. *)
Definition callExecutionWrapper (self : t) (reqData : RequestData)
    (session : option Session) : Action W Event ResponseData :=
  fun st =>
    executionWrapper self reqData session (clients self) (execute self)
      {| world := world st;
         trace := trace st ++ [ExecutionWrapperCall reqData session] |}.

Definition run (self : t) (reqData : RequestData) (sessionId : option Id)
    : Action W Event ResponseData :=
  asyncReturning (
    session <- await (extern (SessionGet sessionId)
                        (sc_get (sessionClient (clients self)) sessionId)) ;;
    tryCatch
      ((* 0. Request data validation *)
       _ <- sync (assertValidRequestData reqData) ;;
       (* 1. ACL *)
       isAccessible <- await (extern (AclCall reqData session)
                                (aclHandler self reqData session (clients self))) ;;
       if negb isAccessible
       then ret (Fulfilled (ErrorResponse
              (createErrorResult (Error "Authorization Required.") (Some Unauthorized))))
       else
       (* 2. Validation *)
       isValid <- await (extern (ValidationCall reqData session)
                           (validationHandler self reqData session (clients self))) ;;
       if negb isValid
       then ret (Fulfilled (ErrorResponse
              (createErrorResult (Error "Params are not valid.") (Some BadRequest))))
       else
       (* 3. Execution *)
       unawaited (callExecutionWrapper self reqData session))
      (fun e => ret (Fulfilled (ErrorResponse (createErrorResult e None))))).
End Class.

Arguments RequestData : clear implicits.
Arguments OkResult : clear implicits.
Arguments ResultOrError : clear implicits.
Arguments ResponseData : clear implicits.
Arguments AuthenticationResult : clear implicits.
Arguments SessionClient : clear implicits.
Arguments EntityClient : clear implicits.
Arguments ClientPool : clear implicits.
Arguments Event : clear implicits.
Arguments t : clear implicits.

End PhenylCore.

(** ** The dispatcher as the specification words it *)

Module Dispatch.
Import PhenylCore.

(** The variants of the command envelope. *)
Inductive Variant :=
| DataOperation (m : EntityMethod)
| RunCustomQuery
| RunCustomCommand
| Login
| Logout.

#[global] Instance Variant_eq_dec : EqDecision Variant.
Proof. solve_decision. Defined.

Definition variantName (v : Variant) : string :=
  match v with
  | DataOperation m => methodName m
  | RunCustomQuery => "runCustomQuery"
  | RunCustomCommand => "runCustomCommand"
  | Login => "login"
  | Logout => "logout"
  end.

Definition dataOperations : list EntityMethod :=
  [Find; FindOne; Get; GetByIds; Insert; InsertAndGet; InsertAndFetch;
   Update; UpdateAndGet; UpdateAndFetch; Delete].

(** The fixed priority order: find, findOne, get, getByIds, insert,
    insertAndGet, insertAndFetch, update, updateAndGet, updateAndFetch,
    delete, runCustomQuery, runCustomCommand, login, logout. *)
Definition priorityOrder : list Variant :=
  map DataOperation dataOperations ++ [RunCustomQuery; RunCustomCommand; Login; Logout].

Section Reading.
Context {W Params CustomParams Data User : Type}.

Abbreviation RequestData := (RequestData Params CustomParams).
Abbreviation Core := (PhenylCore.t W Params CustomParams Data User).

(** The parameters the envelope carries for a data operation. *)
Definition paramsOf (reqData : RequestData) (m : EntityMethod) : option Params :=
  match m with
  | Find => req_find reqData | FindOne => req_findOne reqData
  | Get => req_get reqData | GetByIds => req_getByIds reqData
  | Insert => req_insert reqData | InsertAndGet => req_insertAndGet reqData
  | InsertAndFetch => req_insertAndFetch reqData
  | Update => req_update reqData | UpdateAndGet => req_updateAndGet reqData
  | UpdateAndFetch => req_updateAndFetch reqData
  | Delete => req_delete reqData
  end.

(** [field != null] *)
Definition notNull {A : Type} (field : option A) : bool :=
  match field with
  | Some _ => true
  | None => false
  end.

Definition populated (reqData : RequestData) (v : Variant) : bool :=
  match v with
  | DataOperation m => notNull (paramsOf reqData m)
  | RunCustomQuery => notNull (req_runCustomQuery reqData)
  | RunCustomCommand => notNull (req_runCustomCommand reqData)
  | Login => notNull (req_login reqData)
  | Logout => notNull (req_logout reqData)
  end.

(** The first populated variant in the priority order. *)
Definition firstPopulated (reqData : RequestData) : option Variant :=
  List.find (populated reqData) priorityOrder.

(** The handler a variant names, applied to the variant's parameters:
    the Operation Backend method for a data operation, the custom
    handlers (which also receive the session), the Authentication
    Controller for login and logout. *)
Definition handlerCall (self : Core) (reqData : RequestData)
    (session : option Session) (v : Variant)
    : option (Action W (Event Params CustomParams) (ResultOrError Data User)) :=
  match v with
  | DataOperation m => callEntity self m <$> paramsOf reqData m
  | RunCustomQuery =>
      (fun params => extern (CustomQueryCall params session)
                       (customQueryHandler self params session (clients self)))
        <$> req_runCustomQuery reqData
  | RunCustomCommand =>
      (fun params => extern (CustomCommandCall params session)
                       (customCommandHandler self params session (clients self)))
        <$> req_runCustomCommand reqData
  | Login => (fun command => login self command session) <$> req_login reqData
  | Logout => (fun command => logout self command session) <$> req_logout reqData
  end.

Definition invalidMethodName : ResponseData Data User :=
  ErrorResponse {| er_type := Some NotFound; er_message := "Invalid method name." |}.

(** Handling one variant: its handler is called once and its result is
    wrapped under the variant's name, or under [error] when [ok] is
    false. *)
Definition handle (self : Core) (reqData : RequestData)
    (session : option Session) (v : Variant)
    : Action W (Event Params CustomParams) (ResponseData Data User) :=
  match handlerCall self reqData session v with
  | Some call => async (result <- await call ;; ret (respond (variantName v) result))
  | None => async (ret invalidMethodName)
  end.

(** The dispatcher as the specification words it. *)
Definition dispatch (self : Core) (reqData : RequestData)
    (session : option Session)
    : Action W (Event Params CustomParams) (ResponseData Data User) :=
  match firstPopulated reqData with
  | Some v => handle self reqData session v
  | None => async (ret invalidMethodName)
  end.

(** The calls that come after a positive access-control answer. *)
Definition behindAcl (ev : Event Params CustomParams) : bool :=
  match ev with
  | SessionGet _ | AclCall _ _ => false
  | _ => true
  end.

(** The calls that come after a positive validation answer. *)
Definition behindValidation (ev : Event Params CustomParams) : bool :=
  match ev with
  | SessionGet _ | AclCall _ _ | ValidationCall _ _ => false
  | _ => true
  end.

Definition isEntityCall (ev : Event Params CustomParams) : bool :=
  match ev with
  | EntityCall _ _ => true
  | _ => false
  end.
End Reading.
End Dispatch.

(** ** Collaborators for the examples *)

Module Example.
Import StandardUserDefinition.

(** An in-memory account store with a clock. *)
Record Store := { records : list Entity; clock : Z }.

Definition matches (filter : gmap string Value) (e : Entity) : bool :=
  forallb (fun kv => bool_decide (entity_props e !! kv.1 = Some kv.2))
          (map_to_list filter).

Definition notFound : Exn :=
  createServerError "findOne() failed. Could not find any entity with the given query." NotFound.

(** [findOne] over the store: the first record that satisfies the filter,
    or a rejection when there is none. *)
Definition storeClient : EntityClient Store :=
  {| findOne := fun query store =>
       match List.find (matches (q_where query)) (records store) with
       | Some e => (Fulfilled {| fr_entity := e; fr_versionId := Some "v1" |}, store)
       | None => (Rejected notFound, store)
       end |}.

(** A store that cannot be reached. *)
Definition brokenClient : EntityClient Store :=
  {| findOne := fun _ store => (Rejected (Error "connection refused"), store) |}.

(** A stand-in for the password transform. *)
Definition scramble : EncryptFunction :=
  fun v =>
    match v with
    | VStr s => VStr (String.append "#" (String.rev s))
    | _ => VStr "#"
    end.

Definition alice : Entity :=
  {| entity_id := "alice-id";
     entity_props := {[ "account" := VStr "alice"; "password" := scramble (VStr "secret") ]} |}.

Definition store0 : Store := {| records := [alice]; clock := 0 |}.

Definition start : State Store Event := {| world := store0; trace := [] |}.

Definition params (client : EntityClient Store) (account password : option string) (ttl : option Z)
    : StandardUserDefinitionParams Store :=
  {| p_entityClient := client; p_encrypt := Some scramble;
     p_accountPropName := account; p_passwordPropName := password;
     p_ttl := ttl |}.

Definition standardUser : StandardUserDefinition.t Store :=
  constructor scramble (params storeClient None None None).

(** A configuration that names one field for both the account and the
    password. *)
Definition sameField : StandardUserDefinition.t Store :=
  constructor scramble (params storeClient (Some "password") (Some "password") None).

(** A configuration whose sessions are meant never to expire. *)
Definition farFuture : StandardUserDefinition.t Store :=
  constructor scramble (params storeClient None None (Some 9007199254740991)).

(** A configuration whose store cannot be reached. *)
Definition offline : StandardUserDefinition.t Store :=
  constructor scramble (params brokenClient None None None).

Definition loginAs (account password : string) : LoginCommand :=
  {| lc_entityName := "user";
     lc_credentials := {[ "account" := VStr account; "password" := VStr password ]} |}.
End Example.

Module CoreExample.
Import PhenylCore.

Abbreviation Request := (RequestData string string).
Abbreviation Result := (ResultOrError string string).
Abbreviation Core := (PhenylCore.t (list Session) string string string string).

Definition hasId (id : Id) (s : Session) : bool := String.eqb (session_id s) id.

(** An in-memory session store. *)
Definition sessions : SessionClient (list Session) :=
  {| sc_get := fun sessionId store =>
       (Fulfilled (match sessionId with
                   | Some id => List.find (hasId id) store
                   | None => None
                   end), store);
     sc_create := fun preSession store =>
       let session := {| session_id := String.append "session-of-" (ps_userId preSession);
                         session_expiredAt := ps_expiredAt preSession;
                         session_entityName := ps_entityName preSession;
                         session_userId := ps_userId preSession |} in
       (Fulfilled session, session :: store);
     sc_delete := fun id store =>
       (Fulfilled (existsb (hasId id) store),
        List.filter (fun s => negb (hasId id s)) store) |}.

(** A session store that cannot be reached. *)
Definition unreachable : Exn := Error "session store unavailable".

Definition brokenSessions : SessionClient (list Session) :=
  {| sc_get := fun _ store => (Rejected unreachable, store);
     sc_create := fun _ store => (Rejected unreachable, store);
     sc_delete := fun _ store => (Rejected unreachable, store) |}.

(** A backend whose operations succeed and hand the parameters back. *)
Definition echo : string -> Extern (list Session) Result :=
  fun params store => (Fulfilled (Ok (DataResult params)), store).

Definition backend : EntityClient (list Session) string string string :=
  {| ec_find := echo; ec_findOne := echo; ec_get := echo; ec_getByIds := echo;
     ec_insert := echo; ec_insertAndGet := echo; ec_insertAndFetch := echo;
     ec_update := echo; ec_updateAndGet := echo; ec_updateAndFetch := echo;
     ec_delete := echo |}.

(** A backend that is down. *)
Definition down : string -> Extern (list Session) Result :=
  fun _ store => (Rejected (Error "backend down"), store).

Definition brokenBackend : EntityClient (list Session) string string string :=
  {| ec_find := down; ec_findOne := down; ec_get := down; ec_getByIds := down;
     ec_insert := down; ec_insertAndGet := down; ec_insertAndFetch := down;
     ec_update := down; ec_updateAndGet := down; ec_updateAndFetch := down;
     ec_delete := down |}.

(** Authentication that knows one account. *)
Definition authenticate (command : LoginCommand) : AuthenticationResult string :=
  if bool_decide (lc_credentials command !! "account" = Some (VStr "alice")
                  /\ lc_credentials command !! "password" = Some (VStr "secret"))
  then Authenticated {| ps_expiredAt := "1971-01-01T00:00:00.000Z";
                        ps_entityName := lc_entityName command;
                        ps_userId := "alice-id" |} "alice"
  else AuthenticationFailed (Error "credentials do not match") Unauthorized.

(** A core with constant access-control and validation answers and an
    execution wrapper that only calls the dispatcher. *)
Definition core (sessionClient : SessionClient (list Session))
    (entityClient : EntityClient (list Session) string string string)
    (accessible valid : bool) : Core :=
  {| clients := {| sessionClient := sessionClient; entityClient := entityClient |};
     aclHandler := fun _ _ _ store => (Fulfilled accessible, store);
     validationHandler := fun _ _ _ store => (Fulfilled valid, store);
     customQueryHandler := fun params _ _ => echo params;
     customCommandHandler := fun params _ _ => echo params;
     authenticationHandler := fun command _ _ store => (Fulfilled (authenticate command), store);
     executionWrapper := fun reqData session _ execution => execution reqData session |}.

Definition wellFormed : Request -> Completion unit := fun _ => Normal tt.

Definition empty : Request :=
  {| req_find := None; req_findOne := None; req_get := None; req_getByIds := None;
     req_insert := None; req_insertAndGet := None; req_insertAndFetch := None;
     req_update := None; req_updateAndGet := None; req_updateAndFetch := None;
     req_delete := None; req_runCustomQuery := None; req_runCustomCommand := None;
     req_login := None; req_logout := None |}.

Definition findRequest : Request :=
  {| req_find := Some "q"; req_findOne := None; req_get := None; req_getByIds := None;
     req_insert := None; req_insertAndGet := None; req_insertAndFetch := None;
     req_update := None; req_updateAndGet := None; req_updateAndFetch := None;
     req_delete := None; req_runCustomQuery := None; req_runCustomCommand := None;
     req_login := None; req_logout := None |}.

Definition customQueryRequest : Request :=
  {| req_find := None; req_findOne := None; req_get := None; req_getByIds := None;
     req_insert := None; req_insertAndGet := None; req_insertAndFetch := None;
     req_update := None; req_updateAndGet := None; req_updateAndFetch := None;
     req_delete := None; req_runCustomQuery := Some "q"; req_runCustomCommand := None;
     req_login := None; req_logout := None |}.

Definition loginRequest (command : LoginCommand) : Request :=
  {| req_find := None; req_findOne := None; req_get := None; req_getByIds := None;
     req_insert := None; req_insertAndGet := None; req_insertAndFetch := None;
     req_update := None; req_updateAndGet := None; req_updateAndFetch := None;
     req_delete := None; req_runCustomQuery := None; req_runCustomCommand := None;
     req_login := Some command; req_logout := None |}.

Definition logoutRequest (command : LogoutCommand) : Request :=
  {| req_find := None; req_findOne := None; req_get := None; req_getByIds := None;
     req_insert := None; req_insertAndGet := None; req_insertAndFetch := None;
     req_update := None; req_updateAndGet := None; req_updateAndFetch := None;
     req_delete := None; req_runCustomQuery := None; req_runCustomCommand := None;
     req_login := None; req_logout := Some command |}.

(** The envelope whose only populated variant is [v]. *)
Definition only (v : Dispatch.Variant) : Request :=
  let data m := if bool_decide (v = Dispatch.DataOperation m) then Some "q" else None in
  {| req_find := data Find; req_findOne := data FindOne; req_get := data Get;
     req_getByIds := data GetByIds; req_insert := data Insert;
     req_insertAndGet := data InsertAndGet; req_insertAndFetch := data InsertAndFetch;
     req_update := data Update; req_updateAndGet := data UpdateAndGet;
     req_updateAndFetch := data UpdateAndFetch; req_delete := data Delete;
     req_runCustomQuery :=
       if bool_decide (v = Dispatch.RunCustomQuery) then Some "q" else None;
     req_runCustomCommand :=
       if bool_decide (v = Dispatch.RunCustomCommand) then Some "q" else None;
     req_login :=
       if bool_decide (v = Dispatch.Login)
       then Some (Example.loginAs "alice" "secret") else None;
     req_logout :=
       if bool_decide (v = Dispatch.Logout)
       then Some {| lo_sessionId := "session-of-alice-id" |} else None |}.

(** Both [update] and [find] populated, and [logout] as well. *)
Definition crowdedRequest : Request :=
  {| req_find := Some "f"; req_findOne := None; req_get := None; req_getByIds := None;
     req_insert := None; req_insertAndGet := None; req_insertAndFetch := None;
     req_update := Some "u"; req_updateAndGet := None; req_updateAndFetch := None;
     req_delete := None; req_runCustomQuery := None; req_runCustomCommand := None;
     req_login := None; req_logout := Some {| lo_sessionId := "s" |} |}.

Definition aliceSession : Session :=
  {| session_id := "session-of-alice-id";
     session_expiredAt := "1971-01-01T00:00:00.000Z";
     session_entityName := "user";
     session_userId := "alice-id" |}.

Definition fresh : State (list Session) (Event string string) :=
  {| world := []; trace := [] |}.

Definition loggedIn : State (list Session) (Event string string) :=
  {| world := [aliceSession]; trace := [] |}.
End CoreExample.

(** ** The execution wrapper of the Standard User strategy *)

Module StandardUserExecution.
Import StandardUserDefinition.

Section Wrap.
(** [RequestData], [ResponseData]: the envelopes the wrapped dispatcher takes
    and returns. *)
Context {W E RequestData ResponseData : Type}.

(** [encryptPasswordInRequestData] and [removePasswordFromResponseData],
    imported from sibling files that are not part of the sources. *)
Variable encryptPasswordInRequestData :
  RequestData -> string -> EncryptFunction -> RequestData.
Variable removePasswordFromResponseData : ResponseData -> string -> ResponseData.

Definition RestApiExecution :=
  RequestData -> option Session -> Action W E ResponseData.

Definition wrapExecution (self : StandardUserDefinition.t W) (reqData : RequestData)
    (session : option Session) (execution : RestApiExecution)
    : Action W E ResponseData :=
  async (
    let newReqData :=
      encryptPasswordInRequestData reqData (passwordPropName self) (encrypt self) in
    resData <- await (execution newReqData session) ;;
    let newResData := removePasswordFromResponseData resData (passwordPropName self) in
    ret newResData).
End Wrap.

End StandardUserExecution.

(** ** Kinds of calls *)

Module Calls.
Import PhenylCore.

Section Kinds.
Context {Params CustomParams : Type}.

(** The calls the dispatcher and the authentication controller issue: the
    backend methods, the custom handlers, the authentication hook and the
    session store's [create] and [delete]. *)
Definition dispatched (ev : Event Params CustomParams) : bool :=
  match ev with
  | EntityCall _ _ | CustomQueryCall _ _ | CustomCommandCall _ _
  | AuthenticationCall _ _ | SessionCreate _ | SessionDelete _ => true
  | SessionGet _ | AclCall _ _ | ValidationCall _ _ | ExecutionWrapperCall _ _ => false
  end.
End Kinds.
End Calls.

(** ** More collaborators for the examples *)

Module FurtherExample.
Import PhenylCore CoreExample.

(** A core whose hooks settle as given, over the in-memory session store,
    with an execution wrapper that only calls the dispatcher. *)
Definition coreOf (sessionClient : SessionClient (list Session))
    (entityClient : EntityClient (list Session) string string string)
    (accessible valid : Outcome bool)
    (authenticated : Outcome (AuthenticationResult string)) : Core :=
  {| clients := {| sessionClient := sessionClient; entityClient := entityClient |};
     aclHandler := fun _ _ _ store => (accessible, store);
     validationHandler := fun _ _ _ store => (valid, store);
     customQueryHandler := fun params _ _ => echo params;
     customCommandHandler := fun params _ _ => echo params;
     authenticationHandler := fun _ _ _ store => (authenticated, store);
     executionWrapper := fun reqData session _ execution => execution reqData session |}.

(** A shape check that refuses every envelope. *)
Definition malformed : Exn := createServerError "Invalid request data." InvalidRequest.

Definition refuse : Request -> Completion unit := fun _ => Abrupt malformed.

Definition customCommandRequest : Request :=
  {| req_find := None; req_findOne := None; req_get := None; req_getByIds := None;
     req_insert := None; req_insertAndGet := None; req_insertAndFetch := None;
     req_update := None; req_updateAndGet := None; req_updateAndFetch := None;
     req_delete := None; req_runCustomQuery := None; req_runCustomCommand := Some "c";
     req_login := None; req_logout := None |}.

Definition insertRequest (params : string) : Request :=
  {| req_find := None; req_findOne := None; req_get := None; req_getByIds := None;
     req_insert := Some params; req_insertAndGet := None; req_insertAndFetch := None;
     req_update := None; req_updateAndGet := None; req_updateAndFetch := None;
     req_delete := None; req_runCustomQuery := None; req_runCustomCommand := None;
     req_login := None; req_logout := None |}.

Definition alicePreSession : PreSession :=
  {| ps_expiredAt := "1971-01-01T00:00:00.000Z";
     ps_entityName := "user";
     ps_userId := "alice-id" |}.

(** Stand-ins for the two request and response transformations: the
    parameters of an insert are marked, the data of a response is cut down
    to its first character. *)
Definition markInsert (reqData : Request) (passwordPropName : string)
    (encrypt : StandardUserDefinition.EncryptFunction) : Request :=
  match req_insert reqData with
  | Some params => insertRequest (String.append "enc:" params)
  | None => reqData
  end.

Definition cutData (resData : ResponseData string string) (passwordPropName : string)
    : ResponseData string string :=
  match resData with
  | Response key (DataResult data) => Response key (DataResult (String.substring 0 5 data))
  | other => other
  end.

(** A Standard User strategy over the session store's state. *)
Definition userDefinition : StandardUserDefinition.t (list Session) :=
  StandardUserDefinition.constructor Example.scramble
    {| StandardUserDefinition.p_entityClient :=
         {| StandardUserDefinition.findOne :=
              fun _ store => (Rejected Example.notFound, store) |};
       StandardUserDefinition.p_encrypt := None;
       StandardUserDefinition.p_accountPropName := None;
       StandardUserDefinition.p_passwordPropName := None;
       StandardUserDefinition.p_ttl := None |}.

End FurtherExample.

(** * Properties *)

(** ** Dates *)

Example iso0 : toISOString 0 = Normal "1970-01-01T00:00:00.000Z".
Proof. reflexivity. Qed.

Example iso_leap_day : toISOString 951782400000 = Normal "2000-02-29T00:00:00.000Z".
Proof. reflexivity. Qed.

Example iso_millis : toISOString 1700000000123 = Normal "2023-11-14T22:13:20.123Z".
Proof. reflexivity. Qed.

Example iso_before_epoch : toISOString (-1) = Normal "1969-12-31T23:59:59.999Z".
Proof. reflexivity. Qed.

Example iso_last : toISOString maxTimeValue = Normal "+275760-09-13T00:00:00.000Z".
Proof. reflexivity. Qed.

Example iso_invalid : toISOString (maxTimeValue + 1) = Abrupt (Error "Invalid time value").
Proof. reflexivity. Qed.

(** The ISO form has twenty-four characters, or twenty-seven for a year
    outside 0 to 9999, and every valid date has one. *)
Lemma length_append (s1 s2 : string) :
  String.length (String.append s1 s2) = (String.length s1 + String.length s2)%nat.
Proof. induction s1 as [|c s1 IH]; simpl; [reflexivity | by rewrite IH]. Qed.

Lemma digits_length (width : nat) (n : Z) : String.length (digits width n) = width.
Proof.
  revert n. induction width as [|w IH]; intros n; simpl; [reflexivity |].
  rewrite length_append, IH. simpl. lia.
Qed.

Lemma isoYear_length (y : Z) :
  String.length (isoYear y) = 4%nat \/ String.length (isoYear y) = 7%nat.
Proof.
  unfold isoYear. destruct ((0 <=? y) && (y <=? 9999)).
  - left. apply digits_length.
  - right. destruct (y <? 0); by rewrite length_append, digits_length.
Qed.

Lemma toISOString_valid (t : Z) :
  Z.abs t <= maxTimeValue ->
  exists s, toISOString t = Normal s /\
            (String.length s = 24%nat \/ String.length s = 27%nat).
Proof.
  intros Hrange. unfold toISOString.
  destruct (Z.leb_spec (Z.abs t) maxTimeValue); [| lia].
  destruct (civilFromDays (t `div` msPerDay)) as [[y m] d].
  eexists. split; [reflexivity |].
  cbn [String.concat]. rewrite !length_append, !digits_length.
  destruct (isoYear_length y) as [-> | ->]; [by left | by right].
Qed.

Lemma toISOString_invalid (t : Z) :
  maxTimeValue < Z.abs t -> toISOString t = Abrupt (Error "Invalid time value").
Proof.
  intros Hrange. unfold toISOString.
  destruct (Z.leb_spec (Z.abs t) maxTimeValue); [lia | reflexivity].
Qed.

(** ** Stepping through a function body *)

Section Steps.
Context {W E : Type}.

Lemma await_extern {A B} (ev : E) (f : Extern W A) (k : A -> Body W E B) st o w :
  f (world st) = (o, w) ->
  bind (await (extern ev f)) k st =
    match o with
    | Fulfilled a => k a {| world := w; trace := trace st ++ [ev] |}
    | Rejected e => (Abrupt e, {| world := w; trace := trace st ++ [ev] |})
    | Thrown e => (Abrupt e, {| world := w; trace := trace st ++ [ev] |})
    end.
Proof.
  intros Hf. unfold bind, await, extern. rewrite Hf. by destruct o.
Qed.

Lemma bind_sync {A B} (c : Completion A) (k : A -> Body W E B) st :
  bind (sync c) k st =
    match c with
    | Normal a => k a st
    | Abrupt e => (Abrupt e, st)
    end.
Proof. unfold bind, sync. by destruct c. Qed.

Lemma async_never_throws {A} (body : Body W E A) st e st' :
  async body st <> (Thrown e, st').
Proof.
  unfold async. destruct (body st) as [[a|e'] st'']; congruence.
Qed.

Lemma asyncReturning_never_throws {A} (body : Body W E (Outcome A)) st e st' :
  asyncReturning body st <> (Thrown e, st').
Proof.
  unfold asyncReturning.
  destruct (body st) as [[[a|e'|e']|e'] st'']; congruence.
Qed.
End Steps.

(** ** The Standard User strategy *)

Section StandardUserProperties.
Import StandardUserDefinition.
Context {W : Type} (Date_now : W -> Z) (powerCrypt : EncryptFunction).

(** C10.  A configuration value that is absent or falsy is replaced by
    its default: a [ttl] of 0 becomes 31536000 seconds (one year), an empty
    [accountPropName] becomes "account", an empty [passwordPropName] becomes
    "password", and an absent [encrypt] becomes the default transform. *)
Theorem constructor_falsy_defaults (params : StandardUserDefinitionParams W) :
  (p_ttl params = None \/ p_ttl params = Some 0 ->
     ttl (constructor powerCrypt params) = 31536000) /\
  (p_accountPropName params = None \/ p_accountPropName params = Some "" ->
     accountPropName (constructor powerCrypt params) = "account") /\
  (p_passwordPropName params = None \/ p_passwordPropName params = Some "" ->
     passwordPropName (constructor powerCrypt params) = "password") /\
  (p_encrypt params = None -> encrypt (constructor powerCrypt params) = powerCrypt).
Proof.
  unfold constructor; simpl.
  repeat split; intros H; try destruct H as [H|H]; rewrite H; reflexivity.
Qed.

(** A value that is present and truthy is kept. *)
Lemma constructor_keeps_truthy (params : StandardUserDefinitionParams W) n name :
  p_ttl params = Some n -> n <> 0 ->
  p_accountPropName params = Some name -> name <> "" ->
  ttl (constructor powerCrypt params) = n /\
  accountPropName (constructor powerCrypt params) = name.
Proof.
  intros Hn Hn0 Hs Hs0. unfold constructor; simpl. rewrite Hn, Hs. simpl.
  unfold truthy, number_truthy, string_truthy. split.
  - destruct (Z.eqb_spec n 0); [contradiction | reflexivity].
  - destruct name; [contradiction | reflexivity].
Qed.

(** The filter [authorize] builds. *)
Lemma filter_password (self : StandardUserDefinition.t W) (account password : Value) :
  (<[passwordPropName self := encrypt self password]>
     (<[accountPropName self := account]> (∅ : gmap string Value)))
    !! passwordPropName self = Some (encrypt self password).
Proof. apply lookup_insert_eq. Qed.

Lemma filter_account (self : StandardUserDefinition.t W) (account password : Value) :
  accountPropName self <> passwordPropName self ->
  (<[passwordPropName self := encrypt self password]>
     (<[accountPropName self := account]> (∅ : gmap string Value)))
    !! accountPropName self = Some account.
Proof.
  intros Hne. rewrite lookup_insert_ne by congruence. apply lookup_insert_eq.
Qed.

Lemma filter_dom (self : StandardUserDefinition.t W) (account password : Value) :
  dom (<[passwordPropName self := encrypt self password]>
         (<[accountPropName self := account]> (∅ : gmap string Value)))
  = ({[ accountPropName self; passwordPropName self ]} : gset string).
Proof.
  rewrite !dom_insert_L, dom_empty_L, (right_id_L ∅ (∪)).
  apply (comm_L (∪)).
Qed.

(** [authorize] issues exactly one call, whatever comes of it. *)
Lemma authorize_trace (self : StandardUserDefinition.t W) loginCommand session st :
  trace (authorize Date_now self loginCommand session st).2 =
    trace st ++
    [FindOneCall
       {| q_entityName := lc_entityName loginCommand;
          q_where :=
            <[passwordPropName self :=
                encrypt self (prop (lc_credentials loginCommand) (passwordPropName self))]>
              (<[accountPropName self :=
                   prop (lc_credentials loginCommand) (accountPropName self)]> ∅) |}].
Proof.
  unfold authorize, async, tryCatch. cbv zeta.
  match goal with |- context [findOne ?c ?q] =>
    destruct (findOne c q (world st)) as [o w] eqn:Hf;
    rewrite (await_extern _ _ _ st o w Hf)
  end.
  destruct o as [result|e|e]; simpl; try reflexivity.
  unfold bind, gets, sync, ret, throw; simpl.
  destruct (toISOString _); reflexivity.
Qed.

(** C3 (amended).  For every login command [authorize] calls [findOne]
    exactly once, with the command's entity name and a filter that has
    two fields at most: the password field holds the encrypted password,
    and the account field, when it is a different field, holds the account
    value.  When [findOne] resolves to a record and now plus [ttl] seconds is
    a valid date, [authorize] resolves to the pre-session whose [expiredAt]
    is that instant in ISO-8601 form and whose [userId] is the record's id,
    with the record as [user] and its [versionId]. *)
Theorem authorize_matching_record (self : StandardUserDefinition.t W)
    (loginCommand : LoginCommand) (session : option Session) (st : State W Event) :
  let account := prop (lc_credentials loginCommand) (accountPropName self) in
  let password := prop (lc_credentials loginCommand) (passwordPropName self) in
  let query :=
    {| q_entityName := lc_entityName loginCommand;
       q_where := <[passwordPropName self := encrypt self password]>
                    (<[accountPropName self := account]> ∅) |} in
  trace (authorize Date_now self loginCommand session st).2
    = trace st ++ [FindOneCall query] /\
  q_where query !! passwordPropName self = Some (encrypt self password) /\
  (accountPropName self <> passwordPropName self ->
     q_where query !! accountPropName self = Some account) /\
  dom (q_where query) = ({[ accountPropName self; passwordPropName self ]} : gset string) /\
  forall result w1,
    findOne (entityClient self) query (world st) = (Fulfilled result, w1) ->
    Z.abs (Date_now w1 + ttl self * 1000) <= maxTimeValue ->
    exists expiredAt,
      toISOString (Date_now w1 + ttl self * 1000) = Normal expiredAt /\
      authorize Date_now self loginCommand session st =
        (Fulfilled
           {| preSession := {| ps_expiredAt := expiredAt;
                               ps_entityName := lc_entityName loginCommand;
                               ps_userId := entity_id (fr_entity result) |};
              user := fr_entity result;
              versionId := fr_versionId result |},
         {| world := w1; trace := trace st ++ [FindOneCall query] |}).
Proof.
  intros account password query.
  split; [apply authorize_trace |].
  split; [apply filter_password |].
  split; [apply filter_account |].
  split; [apply filter_dom |].
  intros result w1 Hfind Hrange.
  destruct (toISOString_valid _ Hrange) as (expiredAt & Hiso & _).
  exists expiredAt. split; [exact Hiso |].
  unfold authorize, async, tryCatch. cbv zeta.
  fold account password query.
  rewrite (await_extern _ _ _ st _ w1 Hfind).
  unfold bind, gets, sync, ret; simpl. rewrite Hiso. reflexivity.
Qed.

(** A failed lookup is rethrown as an [Unauthorized] error with the same
    message. *)
Lemma authorize_rethrows (self : StandardUserDefinition.t W)
    (loginCommand : LoginCommand) (session : option Session) (st : State W Event)
    (o : Outcome FindOneResult) (e : Exn) (w1 : W) :
  findOne (entityClient self)
    {| q_entityName := lc_entityName loginCommand;
       q_where := <[passwordPropName self :=
                      encrypt self (prop (lc_credentials loginCommand) (passwordPropName self))]>
                    (<[accountPropName self :=
                         prop (lc_credentials loginCommand) (accountPropName self)]> ∅) |}
    (world st) = (o, w1) ->
  o = Rejected e \/ o = Thrown e ->
  (authorize Date_now self loginCommand session st).1 =
    Rejected (createServerError (message e) Unauthorized) /\
  world (authorize Date_now self loginCommand session st).2 = w1.
Proof.
  intros Hfind Ho.
  unfold authorize, async, tryCatch. cbv zeta.
  rewrite (await_extern _ _ _ st o w1 Hfind).
  by destruct Ho as [-> | ->].
Qed.

(** C4.  When the lookup fails, be it that no record matches or that the
    backing store fails, [authorize] fails with an error of kind
    [Unauthorized] that carries the message of the lookup's error and
    nothing else of it. *)
Theorem authorize_lookup_failure (self : StandardUserDefinition.t W)
    (loginCommand : LoginCommand) (session : option Session) (st : State W Event)
    (e : Exn) (w1 : W) :
  let account := prop (lc_credentials loginCommand) (accountPropName self) in
  let password := prop (lc_credentials loginCommand) (passwordPropName self) in
  let query :=
    {| q_entityName := lc_entityName loginCommand;
       q_where := <[passwordPropName self := encrypt self password]>
                    (<[accountPropName self := account]> ∅) |} in
  findOne (entityClient self) query (world st) = (Rejected e, w1) \/
  findOne (entityClient self) query (world st) = (Thrown e, w1) ->
  authorize Date_now self loginCommand session st =
    (Rejected {| message := message e; type := Some Unauthorized |},
     {| world := w1; trace := trace st ++ [FindOneCall query] |}).
Proof.
  intros account password query Hfind.
  pose proof (authorize_trace self loginCommand session st) as Htrace.
  assert (Hboth :
    (authorize Date_now self loginCommand session st).1 =
      Rejected (createServerError (message e) Unauthorized) /\
    world (authorize Date_now self loginCommand session st).2 = w1).
  { destruct Hfind as [Hfind|Hfind];
      eapply authorize_rethrows; eauto. }
  destruct Hboth as [Hresult Hworld].
  destruct (authorize Date_now self loginCommand session st) as [result [w tr]].
  simpl in *. by subst.
Qed.

(** Two failed lookups with the same message give the same error, whatever
    the kinds of the two errors and whatever made the lookups fail. *)
Corollary authorize_failures_alike (self : StandardUserDefinition.t W)
    loginCommand session st st' (e e' : Exn) w w' :
  findOne (entityClient self)
    {| q_entityName := lc_entityName loginCommand;
       q_where := <[passwordPropName self :=
                      encrypt self (prop (lc_credentials loginCommand) (passwordPropName self))]>
                    (<[accountPropName self :=
                         prop (lc_credentials loginCommand) (accountPropName self)]> ∅) |}
    (world st) = (Rejected e, w) ->
  findOne (entityClient self)
    {| q_entityName := lc_entityName loginCommand;
       q_where := <[passwordPropName self :=
                      encrypt self (prop (lc_credentials loginCommand) (passwordPropName self))]>
                    (<[accountPropName self :=
                         prop (lc_credentials loginCommand) (accountPropName self)]> ∅) |}
    (world st') = (Rejected e', w') ->
  message e = message e' ->
  (authorize Date_now self loginCommand session st).1 =
  (authorize Date_now self loginCommand session st').1.
Proof.
  intros H H' Hm.
  destruct (authorize_rethrows self loginCommand session st _ e w H) as [-> _]; [by left |].
  destruct (authorize_rethrows self loginCommand session st' _ e' w' H') as [-> _]; [by left |].
  by rewrite Hm.
Qed.
End StandardUserProperties.

(** ** The request pipeline *)

(** [awaiting H] steps over the [await] of a collaborator call whose outcome
    is given by [H]. *)
Ltac awaiting H := erewrite await_extern by (simpl; exact H); cbv beta iota.

Section CoreProperties.
Import PhenylCore Dispatch.
Context {W Params CustomParams Data User : Type}.
Variable assertValidRequestData : RequestData Params CustomParams -> Completion unit.
Variable self : PhenylCore.t W Params CustomParams Data User.

Implicit Types (reqData : RequestData Params CustomParams).
Implicit Types (session : option Session) (sessionId : option Id).
Implicit Types (st : State W (Event Params CustomParams)).

(** *** Access control and validation *)

(** C2.  When the ACL hook answers false, [run] resolves to
    [{error: Unauthorized("Authorization Required.")}]; the calls of that run
    are the session lookup and the ACL hook and no other: no validation hook,
    no execution wrapper, no backend method; and the collaborators are left
    as the ACL hook left them. *)
Theorem run_acl_denied reqData sessionId st session w1 w2 :
  sc_get (sessionClient (clients self)) sessionId (world st) = (Fulfilled session, w1) ->
  assertValidRequestData reqData = Normal tt ->
  aclHandler self reqData session (clients self) w1 = (Fulfilled false, w2) ->
  run assertValidRequestData self reqData sessionId st =
    (Fulfilled (ErrorResponse {| er_type := Some Unauthorized;
                                 er_message := "Authorization Required." |}),
     {| world := w2;
        trace := trace st ++ [SessionGet sessionId; AclCall reqData session] |})
  /\ existsb behindAcl [SessionGet sessionId; AclCall reqData session] = false.
Proof.
  intros Hget Hshape Hacl. split; [| reflexivity].
  unfold run, asyncReturning, tryCatch.
  awaiting Hget. rewrite bind_sync, Hshape.
  awaiting Hacl. simpl.
  by rewrite <- app_assoc.
Qed.

(** C7.  When the ACL hook answers true and the validation hook answers
    false, [run] resolves to [{error: BadRequest("Params are not valid.")}];
    the calls of that run are the session lookup and the two hooks and no
    other: no execution wrapper, no backend method. *)
Theorem run_validation_denied reqData sessionId st session w1 w2 w3 :
  sc_get (sessionClient (clients self)) sessionId (world st) = (Fulfilled session, w1) ->
  assertValidRequestData reqData = Normal tt ->
  aclHandler self reqData session (clients self) w1 = (Fulfilled true, w2) ->
  validationHandler self reqData session (clients self) w2 = (Fulfilled false, w3) ->
  run assertValidRequestData self reqData sessionId st =
    (Fulfilled (ErrorResponse {| er_type := Some BadRequest;
                                 er_message := "Params are not valid." |}),
     {| world := w3;
        trace := trace st ++ [SessionGet sessionId; AclCall reqData session;
                              ValidationCall reqData session] |})
  /\ existsb behindValidation
       [SessionGet sessionId; AclCall reqData session; ValidationCall reqData session]
     = false.
Proof.
  intros Hget Hshape Hacl Hvalid. split; [| reflexivity].
  unfold run, asyncReturning, tryCatch.
  awaiting Hget. rewrite bind_sync, Hshape.
  awaiting Hacl. cbn [negb].
  awaiting Hvalid. simpl.
  by rewrite <- !app_assoc.
Qed.
(** *** What the [try] of [run] catches, and what it does not *)

(** A malformed envelope becomes an error result. *)
Lemma run_catches_malformed reqData sessionId st session w1 e :
  sc_get (sessionClient (clients self)) sessionId (world st) = (Fulfilled session, w1) ->
  assertValidRequestData reqData = Abrupt e ->
  run assertValidRequestData self reqData sessionId st =
    (Fulfilled (ErrorResponse (createErrorResult e None)),
     {| world := w1; trace := trace st ++ [SessionGet sessionId] |}).
Proof.
  intros Hget Hshape. unfold run, asyncReturning, tryCatch.
  awaiting Hget. by rewrite bind_sync, Hshape.
Qed.

(** A failing ACL hook becomes an error result. *)
Lemma run_catches_acl_failure reqData sessionId st session w1 w2 e :
  sc_get (sessionClient (clients self)) sessionId (world st) = (Fulfilled session, w1) ->
  assertValidRequestData reqData = Normal tt ->
  aclHandler self reqData session (clients self) w1 = (Rejected e, w2) ->
  run assertValidRequestData self reqData sessionId st =
    (Fulfilled (ErrorResponse (createErrorResult e None)),
     {| world := w2;
        trace := trace st ++ [SessionGet sessionId; AclCall reqData session] |}).
Proof.
  intros Hget Hshape Hacl. unfold run, asyncReturning, tryCatch.
  awaiting Hget. rewrite bind_sync, Hshape.
  awaiting Hacl. simpl. by rewrite <- app_assoc.
Qed.

(** The session lookup is awaited before the [try]: its failure is the
    failure of [run]. *)
Lemma run_session_lookup_escapes reqData sessionId st w1 e :
  sc_get (sessionClient (clients self)) sessionId (world st) = (Rejected e, w1) ->
  run assertValidRequestData self reqData sessionId st =
    (Rejected e, {| world := w1; trace := trace st ++ [SessionGet sessionId] |}).
Proof.
  intros Hget. unfold run, asyncReturning.
  by awaiting Hget.
Qed.

(** The execution wrapper's promise is returned, not awaited: its rejection
    is the rejection of [run]. *)
Lemma run_wrapper_rejection_escapes reqData sessionId st session w1 w2 w3 e st' :
  sc_get (sessionClient (clients self)) sessionId (world st) = (Fulfilled session, w1) ->
  assertValidRequestData reqData = Normal tt ->
  aclHandler self reqData session (clients self) w1 = (Fulfilled true, w2) ->
  validationHandler self reqData session (clients self) w2 = (Fulfilled true, w3) ->
  executionWrapper self reqData session (clients self) (execute self)
    {| world := w3;
       trace := trace st ++ [SessionGet sessionId; AclCall reqData session;
                             ValidationCall reqData session;
                             ExecutionWrapperCall reqData session] |}
    = (Rejected e, st') ->
  run assertValidRequestData self reqData sessionId st = (Rejected e, st').
Proof.
  intros Hget Hshape Hacl Hvalid Hwrap. unfold run, asyncReturning, tryCatch.
  awaiting Hget. rewrite bind_sync, Hshape.
  awaiting Hacl. cbn [negb].
  awaiting Hvalid. cbn [negb].
  unfold unawaited, callExecutionWrapper. simpl.
  rewrite <- !app_assoc. simpl. by rewrite Hwrap.
Qed.

(** A wrapper that throws while it is called is caught. *)
Lemma run_catches_wrapper_throw reqData sessionId st session w1 w2 w3 e st' :
  sc_get (sessionClient (clients self)) sessionId (world st) = (Fulfilled session, w1) ->
  assertValidRequestData reqData = Normal tt ->
  aclHandler self reqData session (clients self) w1 = (Fulfilled true, w2) ->
  validationHandler self reqData session (clients self) w2 = (Fulfilled true, w3) ->
  executionWrapper self reqData session (clients self) (execute self)
    {| world := w3;
       trace := trace st ++ [SessionGet sessionId; AclCall reqData session;
                             ValidationCall reqData session;
                             ExecutionWrapperCall reqData session] |}
    = (Thrown e, st') ->
  run assertValidRequestData self reqData sessionId st =
    (Fulfilled (ErrorResponse (createErrorResult e None)), st').
Proof.
  intros Hget Hshape Hacl Hvalid Hwrap. unfold run, asyncReturning, tryCatch.
  awaiting Hget. rewrite bind_sync, Hshape.
  awaiting Hacl. cbn [negb].
  awaiting Hvalid. cbn [negb].
  unfold unawaited, callExecutionWrapper. simpl.
  rewrite <- !app_assoc. simpl. by rewrite Hwrap.
Qed.

(** *** The dispatcher *)

(** The chain of tests in [execute] is the search for the first populated
    variant in the priority order. *)
Lemma execute_dispatch reqData session :
  execute self reqData session = dispatch self reqData session.
Proof.
  destruct reqData as [f1 f2 f3 f4 f5 f6 f7 f8 f9 f10 f11 f12 f13 f14 f15].
  unfold execute, dispatch, firstPopulated, priorityOrder, dataOperations.
  cbn [req_find req_findOne req_get req_getByIds req_insert req_insertAndGet
       req_insertAndFetch req_update req_updateAndGet req_updateAndFetch
       req_delete req_runCustomQuery req_runCustomCommand req_login req_logout].
  destruct f1; [reflexivity |]. destruct f2; [reflexivity |].
  destruct f3; [reflexivity |]. destruct f4; [reflexivity |].
  destruct f5; [reflexivity |]. destruct f6; [reflexivity |].
  destruct f7; [reflexivity |]. destruct f8; [reflexivity |].
  destruct f9; [reflexivity |]. destruct f10; [reflexivity |].
  destruct f11; [reflexivity |]. destruct f12; [reflexivity |].
  destruct f13; [reflexivity |]. destruct f14; [reflexivity |].
  destruct f15; reflexivity.
Qed.

(** The first populated variant is populated and nothing before it is. *)
Lemma firstPopulated_first reqData v :
  firstPopulated reqData = Some v ->
  populated reqData v = true /\
  exists before after,
    priorityOrder = before ++ v :: after /\
    Forall (fun u => populated reqData u = false) before.
Proof.
  unfold firstPopulated. generalize priorityOrder.
  induction l as [|u l IH]; simpl; [discriminate |].
  destruct (populated reqData u) eqn:Hu.
  - intros [= ->]. split; [done |]. by exists [], l.
  - intros Hfind. destruct (IH Hfind) as (Hv & before & after & -> & Hbefore).
    split; [done |]. exists (u :: before), after. split; [done |].
    by constructor.
Qed.

(** Every data operation is in the order. *)
Lemma dataOperations_all (m : EntityMethod) : In m dataOperations.
Proof. destruct m; simpl; tauto. Qed.

(** The search stops at the one populated data operation. *)
Lemma find_data_operation reqData (m : EntityMethod) params
    (methods : list EntityMethod) (rest : list Variant) :
  paramsOf reqData m = Some params ->
  (forall m', m' <> m -> paramsOf reqData m' = None) ->
  In m methods ->
  List.find (populated reqData) (map DataOperation methods ++ rest)
    = Some (DataOperation m).
Proof.
  intros Hparams Hothers.
  induction methods as [|m' methods IH]; intros Hin; [destruct Hin |].
  simpl. destruct (decide (m' = m)) as [-> | Hne].
  - by rewrite Hparams.
  - rewrite (Hothers m' Hne). simpl. apply IH.
    destruct Hin as [Heq | Hin]; [contradiction | exact Hin].
Qed.

Lemma firstPopulated_only reqData (m : EntityMethod) params :
  paramsOf reqData m = Some params ->
  (forall m', m' <> m -> paramsOf reqData m' = None) ->
  firstPopulated reqData = Some (DataOperation m).
Proof.
  intros Hparams Hothers. unfold firstPopulated, priorityOrder.
  eapply find_data_operation; eauto using dataOperations_all.
Qed.

(** C6.  The dispatcher handles the first populated variant in the order
    find, findOne, get, getByIds, insert, insertAndGet, insertAndFetch,
    update, updateAndGet, updateAndFetch, delete, runCustomQuery,
    runCustomCommand, login, logout, and that variant only, however many
    variants are populated; when none is, it resolves to
    [{error: NotFound("Invalid method name.")}] and calls nothing. *)
Theorem execute_first_populated reqData session :
  map variantName priorityOrder =
    ["find"; "findOne"; "get"; "getByIds"; "insert"; "insertAndGet";
     "insertAndFetch"; "update"; "updateAndGet"; "updateAndFetch"; "delete";
     "runCustomQuery"; "runCustomCommand"; "login"; "logout"] /\
  match List.find (populated reqData) priorityOrder with
  | Some v => execute self reqData session = handle self reqData session v
  | None =>
      forall st,
        execute self reqData session st =
          (Fulfilled (ErrorResponse {| er_type := Some NotFound;
                                       er_message := "Invalid method name." |}), st)
  end.
Proof.
  split; [reflexivity |].
  rewrite execute_dispatch. unfold dispatch, firstPopulated.
  destruct (List.find (populated reqData) priorityOrder); [reflexivity |].
  intros st. reflexivity.
Qed.

(** C5 (amended).  When exactly one of the eleven data operations is
    populated, the dispatcher calls the backend method of that name once,
    with the variant's parameters, and calls nothing else.  A result whose
    [ok] is true is wrapped under the operation's name; a result whose [ok]
    is false is returned under [error]. *)
Theorem execute_data_operation (m : EntityMethod) reqData session st params o w1 :
  paramsOf reqData m = Some params ->
  (forall m', m' <> m -> paramsOf reqData m' = None) ->
  methodOf (entityClient (clients self)) m params (world st) = (o, w1) ->
  execute self reqData session st =
    (match o with
     | Fulfilled (Ok result) => Fulfilled (Response (methodName m) result)
     | Fulfilled (Err error) => Fulfilled (ErrorResponse error)
     | Rejected e => Rejected e
     | Thrown e => Rejected e
     end,
     {| world := w1; trace := trace st ++ [EntityCall m params] |}).
Proof.
  intros Hparams Hothers Hcall.
  pose proof (firstPopulated_only reqData m params Hparams Hothers) as Hfirst.
  rewrite execute_dispatch. unfold dispatch. rewrite Hfirst.
  unfold handle, handlerCall. rewrite Hparams. simpl.
  unfold async, callEntity. awaiting Hcall.
  by destruct o as [[result|error]|e|e].
Qed.

(** *** The authentication controller *)

(** C8.  When the authentication hook succeeds, [login] hands the hook's
    pre-session to the session store's [create] and resolves to
    [{ok: 1, user, session}] with the hook's user and the session [create]
    returned.  When the hook reports a failure, [login] resolves to an
    error result of the hook's error kind, and creates no session. *)
Theorem login_outcome (loginCommand : LoginCommand) session st result w1 :
  authenticationHandler self loginCommand session (clients self) (world st)
    = (Fulfilled result, w1) ->
  match result with
  | Authenticated preSession user =>
      forall newSession w2,
        sc_create (sessionClient (clients self)) preSession w1 = (Fulfilled newSession, w2) ->
        login self loginCommand session st =
          (Fulfilled (Ok (LoginResult user newSession)),
           {| world := w2;
              trace := trace st ++ [AuthenticationCall loginCommand session;
                                    SessionCreate preSession] |})
  | AuthenticationFailed error resultType =>
      login self loginCommand session st =
        (Fulfilled (Err {| er_type := Some resultType; er_message := message error |}),
         {| world := w1;
            trace := trace st ++ [AuthenticationCall loginCommand session] |})
  end.
Proof.
  intros Hauth. destruct result as [preSession user | error resultType].
  - intros newSession w2 Hcreate. unfold login, async, tryCatch.
    awaiting Hauth. awaiting Hcreate. simpl. by rewrite <- app_assoc.
  - unfold login, async, tryCatch. by awaiting Hauth.
Qed.

(** An exception in the hook or in [create] becomes an error result. *)
Lemma login_catches (loginCommand : LoginCommand) session st e w1 :
  authenticationHandler self loginCommand session (clients self) (world st)
    = (Rejected e, w1) ->
  login self loginCommand session st =
    (Fulfilled (Err (createErrorResult e None)),
     {| world := w1; trace := trace st ++ [AuthenticationCall loginCommand session] |}).
Proof.
  intros Hauth. unfold login, async, tryCatch. by awaiting Hauth.
Qed.

(** C9.  [logout] calls the session store's [delete] with the command's
    [sessionId], once.  When [delete] answers false the result is the error
    [BadRequest("sessionId not found")], which the dispatcher returns as
    [{error: ...}]; when it answers true the result is [{ok: 1}]; when it
    throws or rejects the result is the catch-all error result of the
    exception. *)
Theorem logout_outcome (logoutCommand : LogoutCommand) session st o w1 :
  sc_delete (sessionClient (clients self)) (lo_sessionId logoutCommand) (world st)
    = (o, w1) ->
  let result :=
    match o with
    | Fulfilled false =>
        Err {| er_type := Some BadRequest; er_message := "sessionId not found" |}
    | Fulfilled true => Ok LogoutResult
    | Rejected e => Err {| er_type := type e; er_message := message e |}
    | Thrown e => Err {| er_type := type e; er_message := message e |}
    end in
  let st' :=
    {| world := w1;
       trace := trace st ++ [SessionDelete (lo_sessionId logoutCommand)] |} in
  logout self logoutCommand session st = (Fulfilled result, st') /\
  forall reqData,
    firstPopulated reqData = Some Logout ->
    req_logout reqData = Some logoutCommand ->
    execute self reqData session st =
      (Fulfilled match result with
                 | Ok r => Response "logout" r
                 | Err error => ErrorResponse error
                 end, st').
Proof.
  intros Hdelete result st'.
  assert (Hlogout : logout self logoutCommand session st = (Fulfilled result, st')).
  { unfold logout, async, tryCatch. awaiting Hdelete.
    subst result st'. by destruct o as [[|]|e|e]. }
  split; [exact Hlogout |].
  intros reqData Hfirst Hcommand.
  rewrite execute_dispatch. unfold dispatch. rewrite Hfirst.
  unfold handle, handlerCall. rewrite Hcommand. simpl.
  unfold async, bind, await. rewrite Hlogout. simpl.
  by destruct result.
Qed.
End CoreProperties.

(** ** The properties on the example collaborators *)

Section Examples.
Import StandardUserDefinition PhenylCore Dispatch Example CoreExample.

Lemma constructor_falsy_defaults_witness :
  ttl (constructor scramble (params storeClient (Some "") (Some "") (Some 0))) = 31536000 /\
  accountPropName (constructor scramble (params storeClient (Some "") (Some "") (Some 0)))
    = "account" /\
  passwordPropName (constructor scramble (params storeClient (Some "") (Some "") (Some 0)))
    = "password".
Proof.
  destruct (constructor_falsy_defaults scramble
              (params storeClient (Some "") (Some "") (Some 0)))
    as (Httl & Haccount & Hpassword & _).
  split; [apply Httl; right; reflexivity |].
  split; [apply Haccount; right; reflexivity | apply Hpassword; right; reflexivity].
Defined.

(** Alice logs in at the epoch with the default [ttl]: the session expires
    one year later. *)
Lemma authorize_matching_record_witness :
  authorize clock standardUser (loginAs "alice" "secret") None start =
    (Fulfilled
       {| preSession := {| ps_expiredAt := "1971-01-01T00:00:00.000Z";
                           ps_entityName := "user";
                           ps_userId := "alice-id" |};
          user := alice;
          versionId := Some "v1" |},
     {| world := store0;
        trace := [FindOneCall
                    {| q_entityName := "user";
                       q_where := {[ "account" := VStr "alice";
                                     "password" := VStr "#terces" ]} |}] |}).
Proof.
  destruct (authorize_matching_record clock standardUser (loginAs "alice" "secret") None start)
    as (_ & _ & _ & _ & Hmatch).
  destruct (Hmatch {| fr_entity := alice; fr_versionId := Some "v1" |} store0)
    as (expiredAt & Hiso & Hrun).
  - vm_compute. reflexivity.
  - vm_compute. discriminate.
  - rewrite Hrun. vm_compute in Hiso. injection Hiso as <-.
    vm_compute. reflexivity.
Defined.

(** A wrong password against a store that holds the encrypted right one. *)
Lemma authorize_lookup_failure_witness :
  authorize clock standardUser (loginAs "alice" "wrong") None start =
    (Rejected {| message := "findOne() failed. Could not find any entity with the given query.";
                 type := Some Unauthorized |},
     {| world := store0;
        trace := [FindOneCall
                    {| q_entityName := "user";
                       q_where := {[ "account" := VStr "alice";
                                     "password" := VStr "#gnorw" ]} |}] |}).
Proof.
  rewrite (authorize_lookup_failure clock standardUser (loginAs "alice" "wrong") None start
             notFound store0).
  - vm_compute. reflexivity.
  - left. vm_compute. reflexivity.
Defined.

(** A store that cannot be reached gives an error of the same kind. *)
Example authorize_offline :
  (authorize clock offline (loginAs "alice" "secret") None start).1 =
    Rejected {| message := "connection refused"; type := Some Unauthorized |}.
Proof. vm_compute. reflexivity. Qed.

(** Two configurations on which the specification's sentence on [authorize]
    fails as it is worded.  With one field named for both the account and
    the password, no query has that field equal to both the account value
    and the encrypted password: the filter holds the encrypted password.  With a [ttl] that reaches past the last
    valid date, the lookup finds Alice's record and [authorize] still does
    not resolve to a pre-session. *)
Lemma authorize_counterexample :
  (~ exists query,
       trace (authorize clock sameField (loginAs "alice" "secret") None start).2
         = [FindOneCall query] /\
       q_where query !! accountPropName sameField
         = Some (prop (lc_credentials (loginAs "alice" "secret")) (accountPropName sameField)) /\
       q_where query !! passwordPropName sameField
         = Some (encrypt sameField
                   (prop (lc_credentials (loginAs "alice" "secret"))
                         (passwordPropName sameField)))) /\
  (findOne (StandardUserDefinition.entityClient farFuture)
     {| q_entityName := "user";
        q_where := {[ "account" := VStr "alice"; "password" := VStr "#terces" ]} |}
     store0
     = (Fulfilled {| fr_entity := alice; fr_versionId := Some "v1" |}, store0) /\
   (authorize clock farFuture (loginAs "alice" "secret") None start).1
     = Rejected {| message := "Invalid time value"; type := Some Unauthorized |}).
Proof.
  split.
  - intros (query & _ & Haccount & Hpassword).
    change (accountPropName sameField) with (passwordPropName sameField) in Haccount.
    rewrite Hpassword in Haccount. vm_compute in Haccount. discriminate.
  - split; vm_compute; reflexivity.
Qed.

(** What [authorize] sends with the one-field configuration. *)
Example authorize_same_field :
  trace (authorize clock sameField (loginAs "alice" "secret") None start).2 =
    [FindOneCall {| q_entityName := "user";
                    q_where := {[ "password" := VStr "#terces" ]} |}].
Proof. vm_compute. reflexivity. Qed.

Lemma run_acl_denied_witness :
  run wellFormed (core sessions backend false true) findRequest None fresh =
    (Fulfilled (ErrorResponse {| er_type := Some Unauthorized;
                                 er_message := "Authorization Required." |}),
     {| world := []; trace := [SessionGet None; AclCall findRequest None] |}).
Proof.
  exact (proj1 (run_acl_denied wellFormed (core sessions backend false true)
                  findRequest None fresh None [] [] eq_refl eq_refl eq_refl)).
Defined.

Lemma run_validation_denied_witness :
  run wellFormed (core sessions backend true false) findRequest None fresh =
    (Fulfilled (ErrorResponse {| er_type := Some BadRequest;
                                 er_message := "Params are not valid." |}),
     {| world := [];
        trace := [SessionGet None; AclCall findRequest None;
                  ValidationCall findRequest None] |}).
Proof.
  exact (proj1 (run_validation_denied wellFormed (core sessions backend true false)
                  findRequest None fresh None [] [] [] eq_refl eq_refl eq_refl eq_refl)).
Defined.

(** C1.  [run] rejects when the session store's [get] rejects, and when
    the dispatcher's failure comes back through the execution wrapper: in
    neither case does it resolve to a result envelope. *)
Theorem run_rejects_past_its_boundary :
  run wellFormed (core brokenSessions backend true true) findRequest (Some "s") fresh =
    (Rejected (Error "session store unavailable"),
     {| world := []; trace := [SessionGet (Some "s")] |}) /\
  run wellFormed (core sessions brokenBackend true true) findRequest None fresh =
    (Rejected (Error "backend down"),
     {| world := [];
        trace := [SessionGet None; AclCall findRequest None;
                  ValidationCall findRequest None;
                  ExecutionWrapperCall findRequest None;
                  EntityCall Find "q"] |}).
Proof. split; reflexivity. Qed.

Lemma execute_data_operation_witness :
  execute (core sessions backend true true) findRequest None fresh =
    (Fulfilled (Response "find" (DataResult "q")),
     {| world := []; trace := [EntityCall Find "q"] |}).
Proof.
  apply (execute_data_operation (core sessions backend true true) Find findRequest
           None fresh "q" (Fulfilled (Ok (DataResult "q"))) []).
  - reflexivity.
  - intros m' Hm'. destruct m'; try reflexivity. contradiction.
  - reflexivity.
Defined.

(** A backend failure is passed on under [error]. *)
Example execute_backend_failure :
  let failing : Core :=
    core sessions
      {| ec_find := fun _ store =>
           (Fulfilled (Err {| er_type := Some NotFound; er_message := "no such entity" |}), store);
         ec_findOne := echo; ec_get := echo; ec_getByIds := echo; ec_insert := echo;
         ec_insertAndGet := echo; ec_insertAndFetch := echo; ec_update := echo;
         ec_updateAndGet := echo; ec_updateAndFetch := echo; ec_delete := echo |}
      true true in
  execute failing findRequest None fresh =
    (Fulfilled (ErrorResponse {| er_type := Some NotFound; er_message := "no such entity" |}),
     {| world := []; trace := [EntityCall Find "q"] |}).
Proof. reflexivity. Qed.

(** With [find], [update] and [logout] populated, [find] is handled. *)
Example execute_crowded :
  execute (core sessions backend true true) crowdedRequest None fresh =
    (Fulfilled (Response "find" (DataResult "f")),
     {| world := []; trace := [EntityCall Find "f"] |}).
Proof. reflexivity. Qed.

Example execute_empty :
  execute (core sessions backend true true) empty None fresh =
    (Fulfilled (ErrorResponse {| er_type := Some NotFound;
                                 er_message := "Invalid method name." |}), fresh).
Proof. reflexivity. Qed.

(** There are eleven data operations, not twelve: no twelve variants are
    dispatched to a backend method of their name.  The next variant in the
    order, [runCustomQuery], goes to the custom query handler. *)
Lemma twelve_data_operations_counterexample :
  ~ (exists variants : list Variant,
       NoDup variants /\ length variants = 12%nat /\
       forall v, In v variants ->
         exists m, methodName m = variantName v /\
           trace (execute (core sessions backend true true) (only v) None fresh).2
             = [EntityCall m "q"]) /\
  trace (execute (core sessions backend true true) (only RunCustomQuery) None fresh).2
    = [CustomQueryCall "q" None].
Proof.
  split; [| reflexivity].
  intros (variants & Hnodup & Hlength & Hall).
  assert (Hsub : forall v, v ∈ variants -> v ∈ map DataOperation dataOperations).
  { intros v Hv. apply list_elem_of_In in Hv.
    destruct (Hall v Hv) as (m & _ & Htrace).
    destruct v as [m'| | | |]; try (vm_compute in Htrace; discriminate).
    apply list_elem_of_In. destruct m'; simpl; tauto. }
  pose proof (submseteq_length _ _ (NoDup_submseteq _ _ Hnodup Hsub)) as Hle.
  rewrite Hlength in Hle. simpl in Hle. lia.
Qed.

Lemma login_outcome_witness :
  login (core sessions backend true true) (loginAs "alice" "secret") None fresh =
    (Fulfilled (Ok (LoginResult "alice" aliceSession)),
     {| world := [aliceSession];
        trace := [AuthenticationCall (loginAs "alice" "secret") None;
                  SessionCreate {| ps_expiredAt := "1971-01-01T00:00:00.000Z";
                                   ps_entityName := "user";
                                   ps_userId := "alice-id" |}] |}).
Proof.
  pose proof (login_outcome (core sessions backend true true) (loginAs "alice" "secret")
                None fresh
                (Authenticated {| ps_expiredAt := "1971-01-01T00:00:00.000Z";
                                  ps_entityName := "user";
                                  ps_userId := "alice-id" |} "alice") []) as Hlogin.
  simpl in Hlogin. apply Hlogin.
  - vm_compute. reflexivity.
  - reflexivity.
Defined.

(** A failed authentication keeps the hook's error kind. *)
Example login_failed :
  login (core sessions backend true true) (loginAs "alice" "wrong") None fresh =
    (Fulfilled (Err {| er_type := Some Unauthorized;
                       er_message := "credentials do not match" |}),
     {| world := []; trace := [AuthenticationCall (loginAs "alice" "wrong") None] |}).
Proof. vm_compute. reflexivity. Qed.

Lemma logout_outcome_witness :
  logout (core sessions backend true true) {| lo_sessionId := "nobody" |} None loggedIn =
    (Fulfilled (Err {| er_type := Some BadRequest; er_message := "sessionId not found" |}),
     {| world := [aliceSession]; trace := [SessionDelete "nobody"] |}).
Proof.
  exact (proj1 (logout_outcome (core sessions backend true true)
                  {| lo_sessionId := "nobody" |} None loggedIn
                  (Fulfilled false) [aliceSession] eq_refl)).
Defined.

(** Login, then logout of the session it created. *)
Example login_then_logout :
  let core := core sessions backend true true in
  let '(_, st1) := login core (loginAs "alice" "secret") None fresh in
  (logout core {| lo_sessionId := "session-of-alice-id" |} None st1).1
    = Fulfilled (Ok LogoutResult).
Proof. vm_compute. reflexivity. Qed.
End Examples.

(** * Further properties *)

(** ** The request pipeline, beyond the two refusals *)

Section FurtherCore.
Import PhenylCore Dispatch Calls.
Context {W Params CustomParams Data User : Type}.
Variable assertValidRequestData : RequestData Params CustomParams -> Completion unit.
Variable self : PhenylCore.t W Params CustomParams Data User.

Implicit Types (reqData : RequestData Params CustomParams).
Implicit Types (session : option Session) (sessionId : option Id).
Implicit Types (st : State W (Event Params CustomParams)).

(** X1.  When the shape check throws, [run] resolves to the error result of
    what was thrown, and calls nothing after the session lookup: neither
    hook, nor the execution wrapper, nor a backend. *)
Theorem run_malformed_envelope reqData sessionId st session w1 e :
  sc_get (sessionClient (clients self)) sessionId (world st) = (Fulfilled session, w1) ->
  assertValidRequestData reqData = Abrupt e ->
  run assertValidRequestData self reqData sessionId st =
    (Fulfilled (ErrorResponse {| er_type := type e; er_message := message e |}),
     {| world := w1; trace := trace st ++ [SessionGet sessionId] |}).
Proof.
  intros Hget Hshape. unfold run, asyncReturning, tryCatch.
  awaiting Hget. by rewrite bind_sync, Hshape.
Qed.

(** X2.  When the ACL hook rejects or throws, [run] resolves to the error
    result of that error; the validation hook and the execution wrapper are
    not called. *)
Theorem run_acl_hook_fails reqData sessionId st session w1 w2 o e :
  sc_get (sessionClient (clients self)) sessionId (world st) = (Fulfilled session, w1) ->
  assertValidRequestData reqData = Normal tt ->
  aclHandler self reqData session (clients self) w1 = (o, w2) ->
  o = Rejected e \/ o = Thrown e ->
  run assertValidRequestData self reqData sessionId st =
    (Fulfilled (ErrorResponse {| er_type := type e; er_message := message e |}),
     {| world := w2;
        trace := trace st ++ [SessionGet sessionId; AclCall reqData session] |}).
Proof.
  intros Hget Hshape Hacl Ho. unfold run, asyncReturning, tryCatch.
  awaiting Hget. rewrite bind_sync, Hshape. awaiting Hacl.
  destruct Ho as [-> | ->]; simpl; by rewrite <- app_assoc.
Qed.

(** X3.  When the ACL hook answers true and the validation hook rejects or
    throws, [run] resolves to the error result of that error; the execution
    wrapper is not called. *)
Theorem run_validation_hook_fails reqData sessionId st session w1 w2 w3 o e :
  sc_get (sessionClient (clients self)) sessionId (world st) = (Fulfilled session, w1) ->
  assertValidRequestData reqData = Normal tt ->
  aclHandler self reqData session (clients self) w1 = (Fulfilled true, w2) ->
  validationHandler self reqData session (clients self) w2 = (o, w3) ->
  o = Rejected e \/ o = Thrown e ->
  run assertValidRequestData self reqData sessionId st =
    (Fulfilled (ErrorResponse {| er_type := type e; er_message := message e |}),
     {| world := w3;
        trace := trace st ++ [SessionGet sessionId; AclCall reqData session;
                              ValidationCall reqData session] |}).
Proof.
  intros Hget Hshape Hacl Hvalid Ho. unfold run, asyncReturning, tryCatch.
  awaiting Hget. rewrite bind_sync, Hshape. awaiting Hacl. cbn [negb].
  awaiting Hvalid.
  destruct Ho as [-> | ->]; simpl; by rewrite <- !app_assoc.
Qed.

(** X4.  When both hooks answer true, the execution wrapper is called once,
    with the envelope, the session the store resolved and the dispatcher,
    and what it settles to is what [run] settles to: its result is the
    result of [run], its rejection is the rejection of [run]; only an
    exception it throws while being called becomes an error result. *)
Theorem run_hands_over_to_wrapper reqData sessionId st session w1 w2 w3 o st' :
  sc_get (sessionClient (clients self)) sessionId (world st) = (Fulfilled session, w1) ->
  assertValidRequestData reqData = Normal tt ->
  aclHandler self reqData session (clients self) w1 = (Fulfilled true, w2) ->
  validationHandler self reqData session (clients self) w2 = (Fulfilled true, w3) ->
  executionWrapper self reqData session (clients self) (execute self)
    {| world := w3;
       trace := trace st ++ [SessionGet sessionId; AclCall reqData session;
                             ValidationCall reqData session;
                             ExecutionWrapperCall reqData session] |}
    = (o, st') ->
  run assertValidRequestData self reqData sessionId st =
    (match o with
     | Fulfilled resData => Fulfilled resData
     | Rejected e => Rejected e
     | Thrown e => Fulfilled (ErrorResponse {| er_type := type e; er_message := message e |})
     end, st').
Proof.
  intros Hget Hshape Hacl Hvalid Hwrap. unfold run, asyncReturning, tryCatch.
  awaiting Hget. rewrite bind_sync, Hshape.
  awaiting Hacl. cbn [negb]. awaiting Hvalid. cbn [negb].
  unfold unawaited, callExecutionWrapper. simpl.
  rewrite <- !app_assoc. simpl. rewrite Hwrap.
  by destruct o.
Qed.

(** X5.  When the session store's [get] rejects or throws, [run] rejects
    with that error, and calls nothing else. *)
Theorem run_session_lookup_fails reqData sessionId st w1 o e :
  sc_get (sessionClient (clients self)) sessionId (world st) = (o, w1) ->
  o = Rejected e \/ o = Thrown e ->
  run assertValidRequestData self reqData sessionId st =
    (Rejected e, {| world := w1; trace := trace st ++ [SessionGet sessionId] |}).
Proof.
  intros Hget Ho. unfold run, asyncReturning. awaiting Hget.
  by destruct Ho as [-> | ->].
Qed.

(** X6.  With an execution wrapper that only calls the dispatcher, a
    request that passes both hooks settles as the dispatcher does on it. *)
Theorem run_with_plain_wrapper reqData sessionId st session w1 w2 w3 :
  (forall reqData' session' clients' execution,
     executionWrapper self reqData' session' clients' execution
       = execution reqData' session') ->
  sc_get (sessionClient (clients self)) sessionId (world st) = (Fulfilled session, w1) ->
  assertValidRequestData reqData = Normal tt ->
  aclHandler self reqData session (clients self) w1 = (Fulfilled true, w2) ->
  validationHandler self reqData session (clients self) w2 = (Fulfilled true, w3) ->
  run assertValidRequestData self reqData sessionId st =
    execute self reqData session
      {| world := w3;
         trace := trace st ++ [SessionGet sessionId; AclCall reqData session;
                               ValidationCall reqData session;
                               ExecutionWrapperCall reqData session] |}.
Proof.
  intros Hplain Hget Hshape Hacl Hvalid. unfold run, asyncReturning, tryCatch.
  awaiting Hget. rewrite bind_sync, Hshape.
  awaiting Hacl. cbn [negb]. awaiting Hvalid. cbn [negb].
  unfold unawaited, callExecutionWrapper. rewrite Hplain. simpl.
  rewrite <- !app_assoc. simpl.
  match goal with |- context [execute self reqData session ?s] =>
    destruct (execute self reqData session s) as [o st'] eqn:Hexecute
  end.
  destruct o as [resData|e|e]; try reflexivity.
  by apply async_never_throws in Hexecute.
Qed.
(** *** The dispatcher's other branches *)

(** A recorded call adds itself to the trace and nothing else. *)
Lemma extern_calls {A} (ev : Event Params CustomParams) (f : Extern W A) st :
  exists o st', extern ev f st = (o, st') /\ trace st' = trace st ++ [ev].
Proof.
  unfold extern. destruct (f (world st)) as [o w]. by eexists _, _.
Qed.

(** [login] always resolves; it calls the authentication hook, and after it
    the session store's [create] at most once. *)
Lemma login_settles (loginCommand : LoginCommand) session st :
  exists result st',
    login self loginCommand session st = (Fulfilled result, st') /\
    (trace st' = trace st ++ [AuthenticationCall loginCommand session] \/
     exists preSession,
       trace st' = trace st ++ [AuthenticationCall loginCommand session;
                                SessionCreate preSession]).
Proof.
  unfold login, async, tryCatch.
  destruct (authenticationHandler self loginCommand session (clients self) (world st))
    as [o w1] eqn:Hauth.
  awaiting Hauth.
  destruct o as [[preSession user | error resultType] | e | e]; simpl;
    try (eexists _, _; split; [reflexivity | by left]).
  destruct (sc_create (sessionClient (clients self)) preSession w1) as [o2 w2] eqn:Hcreate.
  awaiting Hcreate.
  destruct o2 as [newSession | e | e]; simpl;
    (eexists _, _; split; [reflexivity |]; right; exists preSession; simpl;
     by rewrite <- app_assoc).
Qed.

(** [logout] always resolves, after one call of the session store's
    [delete]. *)
Lemma logout_settles (logoutCommand : LogoutCommand) session st :
  exists result st',
    logout self logoutCommand session st = (Fulfilled result, st') /\
    trace st' = trace st ++ [SessionDelete (lo_sessionId logoutCommand)].
Proof.
  unfold logout, async, tryCatch.
  destruct (sc_delete (sessionClient (clients self)) (lo_sessionId logoutCommand) (world st))
    as [o w1] eqn:Hdelete.
  awaiting Hdelete.
  destruct o as [[|] | e | e]; simpl; by eexists _, _.
Qed.

(** An envelope with no data operation has no data operation first. *)
Lemma firstPopulated_no_data reqData :
  (forall m, paramsOf reqData m = None) ->
  firstPopulated reqData =
    List.find (populated reqData) [RunCustomQuery; RunCustomCommand; Login; Logout].
Proof.
  intros Hnone. unfold firstPopulated, priorityOrder.
  induction dataOperations as [|m methods IH]; [reflexivity |].
  simpl. by rewrite Hnone.
Qed.

(** X7.  When no data operation is populated and [runCustomQuery] is, the
    dispatcher calls the custom query handler once, with the variant's
    parameters and the session, and no backend method.  A result whose [ok]
    is true is wrapped under [runCustomQuery], one whose [ok] is false is
    returned under [error], and a failure of the handler is a rejection of
    the dispatcher. *)
Theorem execute_custom_query reqData session st params o w1 :
  (forall m, paramsOf reqData m = None) ->
  req_runCustomQuery reqData = Some params ->
  customQueryHandler self params session (clients self) (world st) = (o, w1) ->
  execute self reqData session st =
    (match o with
     | Fulfilled (Ok result) => Fulfilled (Response "runCustomQuery" result)
     | Fulfilled (Err error) => Fulfilled (ErrorResponse error)
     | Rejected e => Rejected e
     | Thrown e => Rejected e
     end,
     {| world := w1; trace := trace st ++ [CustomQueryCall params session] |}).
Proof.
  intros Hnone Hquery Hcall.
  rewrite execute_dispatch. unfold dispatch.
  rewrite (firstPopulated_no_data _ Hnone). simpl. rewrite Hquery. simpl.
  unfold handle, handlerCall. rewrite Hquery. simpl.
  unfold async. awaiting Hcall.
  by destruct o as [[result|error]|e|e].
Qed.

(** X8.  When neither a data operation nor [runCustomQuery] is populated
    and [runCustomCommand] is, the dispatcher calls the custom command
    handler once, with the variant's parameters and the session; its result
    is wrapped under [runCustomCommand] or returned under [error], and its
    failure is a rejection of the dispatcher. *)
Theorem execute_custom_command reqData session st params o w1 :
  (forall m, paramsOf reqData m = None) ->
  req_runCustomQuery reqData = None ->
  req_runCustomCommand reqData = Some params ->
  customCommandHandler self params session (clients self) (world st) = (o, w1) ->
  execute self reqData session st =
    (match o with
     | Fulfilled (Ok result) => Fulfilled (Response "runCustomCommand" result)
     | Fulfilled (Err error) => Fulfilled (ErrorResponse error)
     | Rejected e => Rejected e
     | Thrown e => Rejected e
     end,
     {| world := w1; trace := trace st ++ [CustomCommandCall params session] |}).
Proof.
  intros Hnone Hquery Hcommand Hcall.
  rewrite execute_dispatch. unfold dispatch.
  rewrite (firstPopulated_no_data _ Hnone). simpl. rewrite Hquery, Hcommand. simpl.
  unfold handle, handlerCall. rewrite Hcommand. simpl.
  unfold async. awaiting Hcall.
  by destruct o as [[result|error]|e|e].
Qed.

(** X9.  When [login] is the first populated variant, the dispatcher
    resolves to what [login] resolves to, wrapped under [login] when its
    [ok] is true and returned under [error] when it is not; it does not
    reject, whatever the authentication hook and the session store do. *)
Theorem execute_login reqData session st (loginCommand : LoginCommand) :
  (forall m, paramsOf reqData m = None) ->
  req_runCustomQuery reqData = None ->
  req_runCustomCommand reqData = None ->
  req_login reqData = Some loginCommand ->
  exists result st',
    login self loginCommand session st = (Fulfilled result, st') /\
    execute self reqData session st =
      (Fulfilled match result with
                 | Ok r => Response "login" r
                 | Err error => ErrorResponse error
                 end, st').
Proof.
  intros Hnone Hquery Hcommand Hlogin.
  destruct (login_settles loginCommand session st) as (result & st' & Hrun & _).
  exists result, st'. split; [exact Hrun |].
  rewrite execute_dispatch. unfold dispatch.
  rewrite (firstPopulated_no_data _ Hnone). simpl.
  rewrite Hquery, Hcommand, Hlogin. simpl.
  unfold handle, handlerCall. rewrite Hlogin. simpl.
  unfold async, bind, await. rewrite Hrun. simpl.
  by destruct result.
Qed.

(** What a variant's handler does to the trace. *)
Lemma handlerCall_calls reqData session v call st :
  handlerCall self reqData session v = Some call ->
  exists o calls st',
    call st = (o, st') /\
    trace st' = trace st ++ calls /\
    (length calls <= 2)%nat /\
    forallb dispatched calls = true /\
    (match v with Login | Logout => exists result, o = Fulfilled result | _ => True end).
Proof.
  destruct v as [m| | | |]; simpl.
  - destruct (paramsOf reqData m) as [params|]; [| discriminate].
    intros [= <-]. unfold callEntity.
    destruct (extern_calls (EntityCall m params)
                (methodOf (entityClient (clients self)) m params) st)
      as (o & st' & Hrun & Htrace).
    exists o, [EntityCall m params], st'. repeat split; simpl; eauto; lia.
  - destruct (req_runCustomQuery reqData) as [params|]; [| discriminate].
    intros [= <-].
    destruct (extern_calls (CustomQueryCall params session)
                (customQueryHandler self params session (clients self)) st)
      as (o & st' & Hrun & Htrace).
    exists o, [CustomQueryCall params session], st'. repeat split; simpl; eauto; lia.
  - destruct (req_runCustomCommand reqData) as [params|]; [| discriminate].
    intros [= <-].
    destruct (extern_calls (CustomCommandCall params session)
                (customCommandHandler self params session (clients self)) st)
      as (o & st' & Hrun & Htrace).
    exists o, [CustomCommandCall params session], st'. repeat split; simpl; eauto; lia.
  - destruct (req_login reqData) as [command|]; [| discriminate].
    intros [= <-].
    destruct (login_settles command session st)
      as (result & st' & Hrun & [Htrace | (preSession & Htrace)]).
    + exists (Fulfilled result), [AuthenticationCall command session], st'.
      repeat split; simpl; eauto; lia.
    + exists (Fulfilled result),
        [AuthenticationCall command session; SessionCreate preSession], st'.
      repeat split; simpl; eauto; lia.
  - destruct (req_logout reqData) as [command|]; [| discriminate].
    intros [= <-].
    destruct (logout_settles command session st) as (result & st' & Hrun & Htrace).
    exists (Fulfilled result), [SessionDelete (lo_sessionId command)], st'.
    repeat split; simpl; eauto; lia.
Qed.

(** X10.  Whatever the envelope, the dispatcher issues at most two calls,
    and none of them is the session lookup, the ACL hook, the validation
    hook or the execution wrapper: it only calls backend methods, the custom
    handlers, the authentication hook and the session store's [create] and
    [delete]. *)
Theorem execute_calls reqData session st :
  exists calls,
    trace (execute self reqData session st).2 = trace st ++ calls /\
    (length calls <= 2)%nat /\
    forallb dispatched calls = true.
Proof.
  rewrite execute_dispatch. unfold dispatch.
  destruct (firstPopulated reqData) as [v|];
    [| exists []; simpl; rewrite app_nil_r; split; [done | split; [lia | done]]].
  unfold handle.
  destruct (handlerCall self reqData session v) as [call|] eqn:Hcall;
    [| exists []; simpl; rewrite app_nil_r; split; [done | split; [lia | done]]].
  destruct (handlerCall_calls _ _ _ _ st Hcall)
    as (o & calls & st' & Hrun & Htrace & Hlength & Hkinds & _).
  exists calls. split; [| by split].
  unfold async, bind, await. rewrite Hrun.
  by destruct o.
Qed.

(** X11.  The dispatcher never throws while it is called, and when it
    rejects, the variant it handled is a data operation or a custom query or
    command: a login, a logout and an envelope with no variant are always
    answered with a result envelope. *)
Theorem execute_rejection reqData session st e st' :
  execute self reqData session st = (Rejected e, st') \/
  execute self reqData session st = (Thrown e, st') ->
  exists v,
    firstPopulated reqData = Some v /\ v <> Login /\ v <> Logout /\
    execute self reqData session st = (Rejected e, st').
Proof.
  intros [Hrun | Hrun]; [| by apply async_never_throws in Hrun].
  pose proof Hrun as Hkeep.
  rewrite execute_dispatch in Hrun. unfold dispatch in Hrun.
  destruct (firstPopulated reqData) as [v|]; [| discriminate].
  exists v. split; [reflexivity |].
  unfold handle in Hrun.
  destruct (handlerCall self reqData session v) as [call|] eqn:Hcall; [| discriminate].
  destruct (handlerCall_calls _ _ _ _ st Hcall) as (o & calls & st1 & Hcalled & _ & _ & _ & Ho).
  unfold async, bind, await in Hrun. rewrite Hcalled in Hrun.
  repeat split; try exact Hkeep;
    intros ->; destruct Ho as [result ->]; discriminate.
Qed.

(** *** The authentication controller's failures *)

(** X12.  When the authentication hook rejects or throws, [login]
    resolves to the error result of that error and does not call the session
    store. *)
Theorem login_hook_exception (loginCommand : LoginCommand) session st o e w1 :
  authenticationHandler self loginCommand session (clients self) (world st) = (o, w1) ->
  o = Rejected e \/ o = Thrown e ->
  login self loginCommand session st =
    (Fulfilled (Err {| er_type := type e; er_message := message e |}),
     {| world := w1; trace := trace st ++ [AuthenticationCall loginCommand session] |}).
Proof.
  intros Hauth Ho. unfold login, async, tryCatch. awaiting Hauth.
  by destruct Ho as [-> | ->].
Qed.

(** X13.  When the authentication hook succeeds and the session store's
    [create] rejects or throws, [login] resolves to the error result of that
    error: no session is returned, and what the hook and the store did to
    the collaborators' state stays done. *)
Theorem login_create_exception (loginCommand : LoginCommand) session st
    preSession user w1 o e w2 :
  authenticationHandler self loginCommand session (clients self) (world st)
    = (Fulfilled (Authenticated preSession user), w1) ->
  sc_create (sessionClient (clients self)) preSession w1 = (o, w2) ->
  o = Rejected e \/ o = Thrown e ->
  login self loginCommand session st =
    (Fulfilled (Err {| er_type := type e; er_message := message e |}),
     {| world := w2;
        trace := trace st ++ [AuthenticationCall loginCommand session;
                              SessionCreate preSession] |}).
Proof.
  intros Hauth Hcreate Ho. unfold login, async, tryCatch.
  awaiting Hauth. awaiting Hcreate.
  destruct Ho as [-> | ->]; simpl; by rewrite <- app_assoc.
Qed.

(** X14.  [login] always resolves, never rejects: it calls the
    authentication hook first and once, and the session store's [create] at
    most once after it, and nothing else. *)
Theorem login_always_resolves (loginCommand : LoginCommand) session st :
  exists result st',
    login self loginCommand session st = (Fulfilled result, st') /\
    (trace st' = trace st ++ [AuthenticationCall loginCommand session] \/
     exists preSession,
       trace st' = trace st ++ [AuthenticationCall loginCommand session;
                                SessionCreate preSession]).
Proof. apply login_settles. Qed.
End FurtherCore.

(** ** The Standard User strategy, beyond the matching record *)

Section FurtherStandardUser.
Import StandardUserDefinition.
Context {W : Type} (Date_now : W -> Z) (powerCrypt : EncryptFunction).

(** [authorize] after a lookup that found a record: the expiry decides. *)
Lemma authorize_after_match (self : StandardUserDefinition.t W)
    (loginCommand : LoginCommand) (session : option Session) (st : State W Event)
    (result : FindOneResult) (w1 : W) :
  findOne (entityClient self)
    {| q_entityName := lc_entityName loginCommand;
       q_where := <[passwordPropName self :=
                      encrypt self (prop (lc_credentials loginCommand) (passwordPropName self))]>
                    (<[accountPropName self :=
                         prop (lc_credentials loginCommand) (accountPropName self)]> ∅) |}
    (world st) = (Fulfilled result, w1) ->
  (authorize Date_now self loginCommand session st).1 =
    match toISOString (Date_now w1 + ttl self * 1000) with
    | Normal expiredAt =>
        Fulfilled {| preSession := {| ps_expiredAt := expiredAt;
                                      ps_entityName := lc_entityName loginCommand;
                                      ps_userId := entity_id (fr_entity result) |};
                     user := fr_entity result;
                     versionId := fr_versionId result |}
    | Abrupt e => Rejected (createServerError (message e) Unauthorized)
    end /\
  world (authorize Date_now self loginCommand session st).2 = w1.
Proof.
  intros Hfind. unfold authorize, async, tryCatch. cbv zeta.
  rewrite (await_extern _ _ _ st _ w1 Hfind).
  unfold bind, gets, sync, ret, throw. simpl.
  by destruct (toISOString _).
Qed.

(** X15.  When the lookup finds a record but now plus [ttl] seconds lies
    beyond the last valid date, [authorize] fails with the [Unauthorized]
    error "Invalid time value": the record is found and the login is
    refused all the same. *)
Theorem authorize_invalid_expiry (self : StandardUserDefinition.t W)
    (loginCommand : LoginCommand) (session : option Session) (st : State W Event)
    (result : FindOneResult) (w1 : W) :
  findOne (entityClient self)
    {| q_entityName := lc_entityName loginCommand;
       q_where := <[passwordPropName self :=
                      encrypt self (prop (lc_credentials loginCommand) (passwordPropName self))]>
                    (<[accountPropName self :=
                         prop (lc_credentials loginCommand) (accountPropName self)]> ∅) |}
    (world st) = (Fulfilled result, w1) ->
  maxTimeValue < Z.abs (Date_now w1 + ttl self * 1000) ->
  (authorize Date_now self loginCommand session st).1 =
    Rejected {| message := "Invalid time value"; type := Some Unauthorized |}.
Proof.
  intros Hfind Hrange.
  destruct (authorize_after_match self loginCommand session st result w1 Hfind) as [-> _].
  by rewrite (toISOString_invalid _ Hrange).
Qed.


(** X17.  A strategy constructed with no [ttl], or with a [ttl] of 0,
    gives a session that expires one year (31536000 seconds) after the
    login, not at once. *)
Theorem authorize_default_ttl (params : StandardUserDefinitionParams W)
    (loginCommand : LoginCommand) (session : option Session) (st : State W Event)
    (result : FindOneResult) (w1 : W) :
  p_ttl params = None \/ p_ttl params = Some 0 ->
  findOne (entityClient (constructor powerCrypt params))
    {| q_entityName := lc_entityName loginCommand;
       q_where :=
         <[passwordPropName (constructor powerCrypt params) :=
             encrypt (constructor powerCrypt params)
               (prop (lc_credentials loginCommand)
                     (passwordPropName (constructor powerCrypt params)))]>
           (<[accountPropName (constructor powerCrypt params) :=
                prop (lc_credentials loginCommand)
                     (accountPropName (constructor powerCrypt params))]> ∅) |}
    (world st) = (Fulfilled result, w1) ->
  Z.abs (Date_now w1 + 31536000000) <= maxTimeValue ->
  exists expiredAt,
    toISOString (Date_now w1 + 31536000000) = Normal expiredAt /\
    (authorize Date_now (constructor powerCrypt params) loginCommand session st).1 =
      Fulfilled {| preSession := {| ps_expiredAt := expiredAt;
                                    ps_entityName := lc_entityName loginCommand;
                                    ps_userId := entity_id (fr_entity result) |};
                   user := fr_entity result;
                   versionId := fr_versionId result |}.
Proof.
  intros Httl Hfind Hrange.
  destruct (toISOString_valid _ Hrange) as (expiredAt & Hiso & _).
  exists expiredAt. split; [exact Hiso |].
  destruct (authorize_after_match (constructor powerCrypt params)
              loginCommand session st result w1 Hfind) as [-> _].
  assert (Hyear : ttl (constructor powerCrypt params) * 1000 = 31536000000).
  { unfold constructor; simpl. by destruct Httl as [-> | ->]. }
  by rewrite Hyear, Hiso.
Qed.

(** X18.  [authorize] reads the entity name and the two configured
    credential fields of the login command and nothing else: two commands
    that agree on these are treated alike, whatever other credentials they
    carry and whatever session is passed. *)
Theorem authorize_reads_two_fields (self : StandardUserDefinition.t W)
    (loginCommand loginCommand' : LoginCommand) (session session' : option Session)
    (st : State W Event) :
  lc_entityName loginCommand = lc_entityName loginCommand' ->
  lc_credentials loginCommand !! accountPropName self
    = lc_credentials loginCommand' !! accountPropName self ->
  lc_credentials loginCommand !! passwordPropName self
    = lc_credentials loginCommand' !! passwordPropName self ->
  authorize Date_now self loginCommand session st
    = authorize Date_now self loginCommand' session' st.
Proof.
  intros Hname Haccount Hpassword.
  unfold authorize, prop. by rewrite Hname, Haccount, Hpassword.
Qed.


(** X20.  Values that are given and truthy are kept as they are: a [ttl]
    other than 0 (a negative one too), non-empty field names, a given
    transform; and the entity client is always the one given. *)
Theorem constructor_keeps_given (params : StandardUserDefinitionParams W)
    (seconds : Z) (account password : string) (transform : EncryptFunction) :
  p_ttl params = Some seconds -> seconds <> 0 ->
  p_accountPropName params = Some account -> account <> "" ->
  p_passwordPropName params = Some password -> password <> "" ->
  p_encrypt params = Some transform ->
  constructor powerCrypt params =
    {| entityClient := p_entityClient params;
       encrypt := transform;
       accountPropName := account;
       passwordPropName := password;
       ttl := seconds |}.
Proof.
  intros Httl Hseconds Haccount Hnonempty Hpassword Hnonempty' Hencrypt.
  unfold constructor. rewrite Httl, Haccount, Hpassword, Hencrypt. simpl.
  unfold truthy, number_truthy, string_truthy.
  destruct (Z.eqb_spec seconds 0); [contradiction |].
  destruct account; [contradiction |]. destruct password; [contradiction |].
  reflexivity.
Qed.
End FurtherStandardUser.

(** ** The execution wrapper *)

Section FurtherWrap.
Import StandardUserDefinition StandardUserExecution.
Context {W E RequestData ResponseData : Type}.
Variable encryptPasswordInRequestData :
  RequestData -> string -> EncryptFunction -> RequestData.
Variable removePasswordFromResponseData : ResponseData -> string -> ResponseData.

(** X21.  [wrapExecution] calls the dispatcher it is given once, on the
    request transformed with the strategy's password field and transform
    and with the session unchanged.  When the dispatcher resolves, the
    result is its response with the password field removed; when it rejects
    or throws, [wrapExecution] rejects with the same error and removes
    nothing. *)
Theorem wrapExecution_outcome (self : StandardUserDefinition.t W)
    (reqData : RequestData) (session : option Session)
    (execution : RequestData -> option Session -> Action W E ResponseData)
    (st st' : State W E) (o : Outcome ResponseData) :
  execution (encryptPasswordInRequestData reqData (passwordPropName self) (encrypt self))
            session st = (o, st') ->
  wrapExecution encryptPasswordInRequestData removePasswordFromResponseData
    self reqData session execution st =
    (match o with
     | Fulfilled resData =>
         Fulfilled (removePasswordFromResponseData resData (passwordPropName self))
     | Rejected e => Rejected e
     | Thrown e => Rejected e
     end, st').
Proof.
  intros Hrun. unfold wrapExecution, async, bind, await, ret. cbv zeta.
  rewrite Hrun. by destruct o.
Qed.
End FurtherWrap.

(** ** The pipeline with the Standard User wrapper *)

Section FurtherComposition.
Import PhenylCore.
Context {W Params CustomParams Data User : Type}.
Variable assertValidRequestData : RequestData Params CustomParams -> Completion unit.
Variable encryptPasswordInRequestData :
  RequestData Params CustomParams -> string -> StandardUserDefinition.EncryptFunction ->
  RequestData Params CustomParams.
Variable removePasswordFromResponseData :
  ResponseData Data User -> string -> ResponseData Data User.
Variable self : PhenylCore.t W Params CustomParams Data User.
Variable userDefinition : StandardUserDefinition.t W.

End FurtherComposition.

(** ** The further properties on the example collaborators *)

Section FurtherExamples.
Import PhenylCore Dispatch Calls Example CoreExample FurtherExample.

Lemma run_malformed_envelope_witness :
  run refuse (core sessions backend true true) findRequest None fresh =
    (Fulfilled (ErrorResponse {| er_type := Some InvalidRequest;
                                 er_message := "Invalid request data." |}),
     {| world := []; trace := [SessionGet None] |}).
Proof.
  exact (run_malformed_envelope refuse (core sessions backend true true)
           findRequest None fresh None [] malformed eq_refl eq_refl).
Defined.

Lemma run_acl_hook_fails_witness :
  run wellFormed
      (coreOf sessions backend (Rejected (Error "acl store down")) (Fulfilled true)
              (Fulfilled (authenticate (loginAs "alice" "secret"))))
      findRequest None fresh =
    (Fulfilled (ErrorResponse {| er_type := None; er_message := "acl store down" |}),
     {| world := []; trace := [SessionGet None; AclCall findRequest None] |}).
Proof.
  exact (run_acl_hook_fails wellFormed
           (coreOf sessions backend (Rejected (Error "acl store down")) (Fulfilled true)
                   (Fulfilled (authenticate (loginAs "alice" "secret"))))
           findRequest None fresh None [] []
           (Rejected (Error "acl store down")) (Error "acl store down")
           eq_refl eq_refl eq_refl (or_introl eq_refl)).
Defined.

Lemma run_validation_hook_fails_witness :
  run wellFormed
      (coreOf sessions backend (Fulfilled true) (Thrown (Error "validator crashed"))
              (Fulfilled (authenticate (loginAs "alice" "secret"))))
      findRequest None fresh =
    (Fulfilled (ErrorResponse {| er_type := None; er_message := "validator crashed" |}),
     {| world := [];
        trace := [SessionGet None; AclCall findRequest None;
                  ValidationCall findRequest None] |}).
Proof.
  exact (run_validation_hook_fails wellFormed
           (coreOf sessions backend (Fulfilled true) (Thrown (Error "validator crashed"))
                   (Fulfilled (authenticate (loginAs "alice" "secret"))))
           findRequest None fresh None [] [] []
           (Thrown (Error "validator crashed")) (Error "validator crashed")
           eq_refl eq_refl eq_refl eq_refl (or_intror eq_refl)).
Defined.

Lemma run_hands_over_to_wrapper_witness :
  run wellFormed (core sessions backend true true) findRequest None fresh =
    (Fulfilled (Response "find" (DataResult "q")),
     {| world := [];
        trace := [SessionGet None; AclCall findRequest None;
                  ValidationCall findRequest None;
                  ExecutionWrapperCall findRequest None;
                  EntityCall Find "q"] |}).
Proof.
  exact (run_hands_over_to_wrapper wellFormed (core sessions backend true true)
           findRequest None fresh None [] [] []
           (Fulfilled (Response "find" (DataResult "q"))) _
           eq_refl eq_refl eq_refl eq_refl eq_refl).
Defined.

Lemma run_session_lookup_fails_witness :
  run wellFormed (core brokenSessions backend true true) findRequest (Some "s") fresh =
    (Rejected (Error "session store unavailable"),
     {| world := []; trace := [SessionGet (Some "s")] |}).
Proof.
  exact (run_session_lookup_fails wellFormed (core brokenSessions backend true true)
           findRequest (Some "s") fresh [] (Rejected unreachable) unreachable
           eq_refl (or_introl eq_refl)).
Defined.

Lemma run_with_plain_wrapper_witness :
  run wellFormed (core sessions backend true true) crowdedRequest None fresh =
    execute (core sessions backend true true) crowdedRequest None
      {| world := [];
         trace := [SessionGet None; AclCall crowdedRequest None;
                   ValidationCall crowdedRequest None;
                   ExecutionWrapperCall crowdedRequest None] |}.
Proof.
  exact (run_with_plain_wrapper wellFormed (core sessions backend true true)
           crowdedRequest None fresh None [] [] []
           (fun _ _ _ _ => eq_refl) eq_refl eq_refl eq_refl eq_refl).
Defined.

Lemma execute_custom_query_witness :
  execute (core sessions backend true true) customQueryRequest (Some aliceSession) fresh =
    (Fulfilled (Response "runCustomQuery" (DataResult "q")),
     {| world := []; trace := [CustomQueryCall "q" (Some aliceSession)] |}).
Proof.
  apply (execute_custom_query (core sessions backend true true) customQueryRequest
           (Some aliceSession) fresh "q" (Fulfilled (Ok (DataResult "q"))) []).
  - intros m. destruct m; reflexivity.
  - reflexivity.
  - reflexivity.
Defined.

Lemma execute_custom_command_witness :
  execute (core sessions backend true true) customCommandRequest None fresh =
    (Fulfilled (Response "runCustomCommand" (DataResult "c")),
     {| world := []; trace := [CustomCommandCall "c" None] |}).
Proof.
  apply (execute_custom_command (core sessions backend true true) customCommandRequest
           None fresh "c" (Fulfilled (Ok (DataResult "c"))) []).
  - intros m. destruct m; reflexivity.
  - reflexivity.
  - reflexivity.
  - reflexivity.
Defined.

Lemma execute_login_witness :
  exists result st',
    login (core sessions backend true true) (loginAs "alice" "wrong") None fresh
      = (Fulfilled result, st') /\
    execute (core sessions backend true true)
            (loginRequest (loginAs "alice" "wrong")) None fresh =
      (Fulfilled match result with
                 | Ok r => Response "login" r
                 | Err error => ErrorResponse error
                 end, st').
Proof.
  apply (execute_login (core sessions backend true true)
           (loginRequest (loginAs "alice" "wrong")) None fresh (loginAs "alice" "wrong")).
  - intros m. destruct m; reflexivity.
  - reflexivity.
  - reflexivity.
  - reflexivity.
Defined.

Lemma execute_rejection_witness :
  exists v,
    firstPopulated findRequest = Some v /\ v <> Login /\ v <> Logout /\
    execute (core sessions brokenBackend true true) findRequest None fresh =
      (Rejected (Error "backend down"),
       {| world := []; trace := [EntityCall Find "q"] |}).
Proof.
  apply (execute_rejection (core sessions brokenBackend true true) findRequest None fresh).
  left. reflexivity.
Defined.

Lemma login_hook_exception_witness :
  login (coreOf sessions backend (Fulfilled true) (Fulfilled true)
                (Rejected (createServerError "no such account" Unauthorized)))
        (loginAs "bob" "secret") None fresh =
    (Fulfilled (Err {| er_type := Some Unauthorized; er_message := "no such account" |}),
     {| world := []; trace := [AuthenticationCall (loginAs "bob" "secret") None] |}).
Proof.
  exact (login_hook_exception
           (coreOf sessions backend (Fulfilled true) (Fulfilled true)
                   (Rejected (createServerError "no such account" Unauthorized)))
           (loginAs "bob" "secret") None fresh
           (Rejected (createServerError "no such account" Unauthorized))
           (createServerError "no such account" Unauthorized) []
           eq_refl (or_introl eq_refl)).
Defined.

Lemma login_create_exception_witness :
  login (coreOf brokenSessions backend (Fulfilled true) (Fulfilled true)
                (Fulfilled (Authenticated alicePreSession "alice")))
        (loginAs "alice" "secret") None fresh =
    (Fulfilled (Err {| er_type := None; er_message := "session store unavailable" |}),
     {| world := [];
        trace := [AuthenticationCall (loginAs "alice" "secret") None;
                  SessionCreate alicePreSession] |}).
Proof.
  exact (login_create_exception
           (coreOf brokenSessions backend (Fulfilled true) (Fulfilled true)
                   (Fulfilled (Authenticated alicePreSession "alice")))
           (loginAs "alice" "secret") None fresh
           alicePreSession "alice" [] (Rejected unreachable) unreachable []
           eq_refl eq_refl (or_introl eq_refl)).
Defined.

Lemma authorize_invalid_expiry_witness :
  (StandardUserDefinition.authorize clock farFuture (loginAs "alice" "secret") None start).1 =
    Rejected {| message := "Invalid time value"; type := Some Unauthorized |}.
Proof.
  apply (authorize_invalid_expiry clock farFuture (loginAs "alice" "secret") None start
           {| StandardUserDefinition.fr_entity := alice;
              StandardUserDefinition.fr_versionId := Some "v1" |} store0).
  - vm_compute. reflexivity.
  - vm_compute. reflexivity.
Defined.

(** A [ttl] of 0: Alice's session still expires a year after the epoch. *)
Lemma authorize_default_ttl_witness :
  (StandardUserDefinition.authorize clock
     (StandardUserDefinition.constructor scramble (params storeClient None None (Some 0)))
     (loginAs "alice" "secret") None start).1 =
    Fulfilled
      {| StandardUserDefinition.preSession :=
           {| ps_expiredAt := "1971-01-01T00:00:00.000Z";
              ps_entityName := "user";
              ps_userId := "alice-id" |};
         StandardUserDefinition.user := alice;
         StandardUserDefinition.versionId := Some "v1" |}.
Proof.
  destruct (authorize_default_ttl clock scramble (params storeClient None None (Some 0))
              (loginAs "alice" "secret") None start
              {| StandardUserDefinition.fr_entity := alice;
                 StandardUserDefinition.fr_versionId := Some "v1" |} store0)
    as (expiredAt & Hiso & Hrun).
  - right. reflexivity.
  - vm_compute. reflexivity.
  - vm_compute. discriminate.
  - rewrite Hrun. vm_compute in Hiso. injection Hiso as <-. reflexivity.
Defined.

(** A one-time code among the credentials changes nothing. *)
Lemma authorize_reads_two_fields_witness :
  StandardUserDefinition.authorize clock standardUser (loginAs "alice" "secret") None start =
  StandardUserDefinition.authorize clock standardUser
    {| lc_entityName := "user";
       lc_credentials := <["otp" := VStr "123456"]> (lc_credentials (loginAs "alice" "secret")) |}
    (Some CoreExample.aliceSession) start.
Proof.
  apply (authorize_reads_two_fields clock standardUser).
  - reflexivity.
  - vm_compute. reflexivity.
  - vm_compute. reflexivity.
Defined.


(** A negative [ttl] and field names of the caller's choice are kept. *)
Lemma constructor_keeps_given_witness :
  StandardUserDefinition.constructor scramble
    (params storeClient (Some "email") (Some "passphrase") (Some (-5))) =
    {| StandardUserDefinition.entityClient := storeClient;
       StandardUserDefinition.encrypt := scramble;
       StandardUserDefinition.accountPropName := "email";
       StandardUserDefinition.passwordPropName := "passphrase";
       StandardUserDefinition.ttl := -5 |}.
Proof.
  apply (constructor_keeps_given scramble
           (params storeClient (Some "email") (Some "passphrase") (Some (-5)))
           (-5) "email" "passphrase" scramble);
    first [reflexivity | discriminate].
Defined.

Lemma wrapExecution_outcome_witness :
  StandardUserExecution.wrapExecution markInsert cutData userDefinition
    (insertRequest "secret") None (execute (core sessions backend true true)) fresh =
    (Fulfilled (Response "insert" (DataResult "enc:s")),
     {| world := []; trace := [EntityCall Insert "enc:secret"] |}).
Proof.
  exact (wrapExecution_outcome markInsert cutData userDefinition
           (insertRequest "secret") None (execute (core sessions backend true true))
           fresh _ (Fulfilled (Response "insert" (DataResult "enc:secret"))) eq_refl).
Defined.

End FurtherExamples.
